(** * Boac ID system: QR payload and spreadsheet record store

    A shallow embedding of the helpers and of the preview route of
    [app.py]: [generate_qr_base64], [log_to_excel], [get_all_records]
    and [id_preview].

    Python dictionaries are finite maps from strings to Python values,
    the spreadsheet file [EXCEL_FILE] is the only piece of state, and
    exceptions are results of an explicit state-and-error monad. *)

From Stdlib Require Import ZArith NArith Ascii String List Lia.
From stdpp Require Import base option list strings pretty gmap.

Local Open Scope string_scope.
Local Open Scope list_scope.

(** ** Python values *)

Module Py.

(** The values that reach the helpers: form fields are [str], a
    missing dictionary entry read with [.get] is [None], and a cell
    read back from a workbook may also hold a number or a boolean. *)
Inductive value : Type :=
| None_
| Bool (b : bool)
| Int (z : Z)
| Str (s : string).

#[global] Instance value_eq_dec : EqDecision value.
Proof. solve_decision. Defined.

(** [str(v)], which is also what an f-string replacement field
    [{v}] renders. *)
Definition str (v : value) : string :=
  match v with
  | None_ => "None"
  | Bool true => "True"
  | Bool false => "False"
  | Int z => pretty z
  | Str s => s
  end.

(** Truth value, as tested by [if v:] and [not v]. *)
Definition truthy (v : value) : bool :=
  match v with
  | None_ => false
  | Bool b => b
  | Int z => negb (Z.eqb z 0)
  | Str s => negb (String.eqb s "")
  end.

(** The exceptions the modelled code can raise. *)
Inductive exn : Type :=
| KeyError (key : string)
| IndexError
| FileNotFoundError.

Inductive result (A : Type) : Type :=
| Ok (a : A)
| Raise (e : exn).
Arguments Ok {A} a.
Arguments Raise {A} e.

#[global] Instance result_ret : MRet result := @Ok.
#[global] Instance result_bind : MBind result := λ A B f r,
  match r with
  | Ok a => f a
  | Raise e => Raise e
  end.

(** [d.get(k)]: never raises, [None] for an absent key. *)
Definition get (d : gmap string value) (k : string) : value :=
  default None_ (d !! k).

(** [d[k]]: raises [KeyError] for an absent key. *)
Definition getitem (d : gmap string value) (k : string) : result value :=
  match d !! k with
  | Some v => Ok v
  | None => Raise (KeyError k)
  end.

(** [t[i]] on a tuple or list: raises [IndexError] out of range. *)
Definition index {A} (t : list A) (i : nat) : result A :=
  match t !! i with
  | Some x => Ok x
  | None => Raise IndexError
  end.

End Py.

Abbreviation dict := (gmap string Py.value).

(** ** QR encoder *)

Definition nl : string := String "010"%char "".

(** The f-string assembled at the top of [generate_qr_base64]. *)
Definition qr_content (data : dict) : string :=
  "MUNICIPALITY OF BOAC ID" +:+ nl +:+
  "----------------------" +:+ nl +:+
  "ID NO: " +:+ Py.str (Py.get data "id_number") +:+ nl +:+
  "NAME: " +:+ Py.str (Py.get data "full_name") +:+ nl +:+
  "POSITION: " +:+ Py.str (Py.get data "position") +:+ nl +:+
  "OFFICE: " +:+ Py.str (Py.get data "office") +:+ nl +:+
  "EMERGENCY: " +:+ Py.str (Py.get data "contact_name") +:+
  " (" +:+ Py.str (Py.get data "contact_number") +:+ ")".

(** The image is produced by the [qrcode] library.  It is kept symbolic:
    a QR code is described by the text it encodes and the rendering
    parameters the helper passes, and the helper's result stands for the
    base64 text of the PNG of that code. *)
Record QRCode : Type := {
  qr_data : string;
  box_size : nat;
  border : nat;
  fill_color : string;
  back_color : string
}.

#[global] Instance QRCode_eq_dec : EqDecision QRCode.
Proof. solve_decision. Defined.

Definition generate_qr_base64 (data : dict) : QRCode :=
  let qr_content := qr_content data in
  {| qr_data := qr_content;
     box_size := 10;
     border := 2;
     fill_color := "#004422";
     back_color := "white" |}.

(** The six keys read by [generate_qr_base64]. *)
Definition payload_fields : list string :=
  ["id_number"; "full_name"; "position"; "office";
   "contact_name"; "contact_number"].

(** ** Clock *)

(** A [datetime] value, as [datetime.now()] returns it.  The class
    keeps [1 <= year <= 9999], [1 <= month <= 12], [1 <= day <= 31],
    [hour < 24], [minute < 60], [second < 60]. *)
Record datetime : Type := {
  year : N;
  month : N;
  day : N;
  hour : N;
  minute : N;
  second : N;
  microsecond : N
}.

(** The ranges of the fields that [strftime_Ymd_HM] prints. *)
Definition valid_datetime (t : datetime) : Prop :=
  (1 ≤ year t ≤ 9999 ∧ 1 ≤ month t ≤ 12 ∧ 1 ≤ day t ≤ 31 ∧
   hour t < 24 ∧ minute t < 60)%N.

Definition digit (n : N) : ascii := ascii_of_N (48 + n mod 10).

(** Zero-padded decimal fields of width two and four. *)
Definition pad2 (n : N) : string :=
  String (digit (n / 10)) (String (digit n) "").

Definition pad4 (n : N) : string :=
  String (digit (n / 1000)) (String (digit (n / 100)) (pad2 n)).

(** [t.strftime("%Y-%m-%d %H:%M")]. *)
Definition strftime_Ymd_HM (t : datetime) : string :=
  pad4 (year t) +:+ "-" +:+ pad2 (month t) +:+ "-" +:+ pad2 (day t) +:+
  " " +:+ pad2 (hour t) +:+ ":" +:+ pad2 (minute t).

(** ** Workbook *)

Record Font : Type := { bold : bool; color : string }.

Record Cell : Type := { value : Py.value; font : option Font }.

(** A worksheet is its title and its rows, row 1 first. *)
Record Worksheet : Type := { title : string; rows : list (list Cell) }.

(** A workbook with its one sheet, the active one. *)
Record Workbook : Type := { active : Worksheet }.

(** [Workbook()]: one empty sheet. *)
Definition new_Workbook : Workbook :=
  {| active := {| title := "Sheet"; rows := [] |} |}.

Definition set_title (t : string) (ws : Worksheet) : Worksheet :=
  {| title := t; rows := rows ws |}.

(** Cells written from plain values carry no font of their own. *)
Definition plain_row (values : list Py.value) : list Cell :=
  map (λ v, {| value := v; font := None |}) values.

(** [ws.append(values)]: one new row below the last one. *)
Definition ws_append (values : list Py.value) (ws : Worksheet) : Worksheet :=
  {| title := title ws; rows := rows ws ++ [plain_row values] |}.

(** [for cell in ws[n]: cell.font = f], rows counted from 1. *)
Definition set_row_font (n : nat) (f : Font) (ws : Worksheet) : Worksheet :=
  {| title := title ws;
     rows := alter (map (λ c, {| value := value c; font := Some f |}))
                   (pred n) (rows ws) |}.

(** [ws.iter_rows(min_row=n, values_only=True)]. *)
Definition iter_rows (min_row : nat) (ws : Worksheet) : list (list Py.value) :=
  map (map value) (drop (pred min_row) (rows ws)).

(** ** The file system, as far as [EXCEL_FILE] goes *)

(** [None] when the file does not exist, otherwise the workbook saved
    in it.  A file that [load_workbook] cannot parse is outside the
    model, and so is a save that the operating system refuses. *)
Abbreviation disk := (option Workbook).

(** Computations that read and write the file and may raise. *)
Definition IO (A : Type) : Type := disk → Py.result A * disk.

#[global] Instance IO_ret : MRet IO := λ A a d, (Py.Ok a, d).
#[global] Instance IO_bind : MBind IO := λ A B f m d,
  match m d with
  | (Py.Ok a, d') => f a d'
  | (Py.Raise e, d') => (Py.Raise e, d')
  end.

(** A pure step that may raise, run inside [IO]. *)
Definition lift {A} (r : Py.result A) : IO A := λ d, (r, d).

Definition path_exists : IO bool := λ d, (Py.Ok (bool_decide (is_Some d)), d).

Definition load_workbook : IO Workbook := λ d,
  match d with
  | Some wb => (Py.Ok wb, d)
  | None => (Py.Raise Py.FileNotFoundError, d)
  end.

Definition wb_save (wb : Workbook) : IO unit := λ _, (Py.Ok tt, Some wb).

(** ** Excel logging *)

Definition EXCEL_HEADERS : list string :=
  ["Date Generated"; "ID Number"; "Full Name"; "Nickname";
   "Position"; "Office"; "Contact Person"; "Contact Number";
   "Address"; "Photo Path"].

(** The list display passed to [ws.append] in [log_to_excel]; its
    elements are evaluated left to right. *)
Definition new_row (now : datetime) (data : dict) : Py.result (list Py.value) :=
  let date := Py.Str (strftime_Ymd_HM now) in
  id_number ← Py.getitem data "id_number";
  full_name ← Py.getitem data "full_name";
  nickname ← Py.getitem data "nickname";
  position ← Py.getitem data "position";
  office ← Py.getitem data "office";
  contact_name ← Py.getitem data "contact_name";
  contact_number ← Py.getitem data "contact_number";
  address ← Py.getitem data "address";
  photo_filename ← Py.getitem data "photo_filename";
  mret [date; id_number; full_name; nickname; position; office;
        contact_name; contact_number; address; photo_filename].

(** [now] is the value [datetime.now()] has during the call. *)
Definition log_to_excel (now : datetime) (data : dict) : IO unit :=
  present ← path_exists;
  wb ← (if negb present then
          let wb := new_Workbook in
          let ws := set_title "ID Records" (active wb) in
          let ws := ws_append (Py.Str <$> EXCEL_HEADERS) ws in
          let ws := set_row_font 1 {| bold := true; color := "004422" |} ws in
          mret {| active := ws |}
        else
          load_workbook);
  row ← lift (new_row now data);
  let wb := {| active := ws_append row (active wb) |} in
  wb_save wb.

(** The dictionary built from one row in [get_all_records]. *)
Definition record_of_row (row : list Py.value) : Py.result dict :=
  c0 ← Py.index row 0;
  c1 ← Py.index row 1;
  c2 ← Py.index row 2;
  c3 ← Py.index row 3;
  c4 ← Py.index row 4;
  c5 ← Py.index row 5;
  c6 ← Py.index row 6;
  c7 ← Py.index row 7;
  c8 ← Py.index row 8;
  c9 ← Py.index row 9;
  mret (<["photo_filename" := c9]> (<["address" := c8]>
       (<["contact_number" := c7]> (<["contact_name" := c6]>
       (<["office" := c5]> (<["position" := c4]>
       (<["nickname" := c3]> (<["full_name" := c2]>
       (<["id_number" := c1]> (<["date" := c0]> (∅ : dict))))))))))).

(** The loop of [get_all_records]: [records.append] for every row, an
    exception ends the call. *)
Fixpoint collect_records (rows : list (list Py.value)) (records : list dict)
  : Py.result (list dict) :=
  match rows with
  | [] => mret records
  | row :: rest =>
      r ← record_of_row row;
      collect_records rest (records ++ [r])
  end.

Definition get_all_records : IO (list dict) :=
  let records : list dict := [] in
  present ← path_exists;
  if present : bool then
    wb ← load_workbook;
    let ws := active wb in
    lift (collect_records (iter_rows 2 ws) records)
  else
    mret records.

(** ** The preview route *)

(** What a view returns: a redirect, with the messages flashed before
    it as (message, category), or a rendered template with its context.
    Login state and [current_user] are left out. *)
Inductive response : Type :=
| redirect (endpoint : string) (flashed : list (string * string))
| render_template (template : string) (records : list dict)
    (selected_record : dict) (qr_code : QRCode) (is_new : Py.value).

(** [records[-1]]. *)
Definition last_record (records : list dict) : Py.result dict :=
  match last records with
  | Some r => Py.Ok r
  | None => Py.Raise Py.IndexError
  end.

(** [next((r for r in records if str(r['id_number']) == str(selected_id)),
    default)], the default being evaluated by the caller. *)
Fixpoint next_match (records : list dict) (selected_id : Py.value)
    (default : dict) : Py.result dict :=
  match records with
  | [] => Py.Ok default
  | r :: rest =>
      id_number ← Py.getitem r "id_number";
      if String.eqb (Py.str id_number) (Py.str selected_id)
      then Py.Ok r
      else next_match rest selected_id default
  end.

(** The choice of the record to show, the [if selected_id:] statement of
    [id_preview]. *)
Definition select_record (records : list dict) (selected_id : Py.value)
  : Py.result dict :=
  if Py.truthy selected_id then
    fallback ← last_record records;
    next_match records selected_id fallback
  else
    last_record records.

(** [request.args.get(k)] and [request.args.get(k, default)]; query
    parameters are strings. *)
Definition args_get (args : gmap string string) (k : string)
    (default : Py.value) : Py.value :=
  match args !! k with
  | Some s => Py.Str s
  | None => default
  end.

(** [args] are the query parameters of the request. *)
Definition id_preview (args : gmap string string) : IO response :=
  records ← get_all_records;
  if negb (bool_decide (records ≠ [])) then
    mret (redirect "index" [("No resident records found.", "info")])
  else
    let selected_id := args_get args "selected_id" Py.None_ in
    let is_new := args_get args "is_new" (Py.Bool false) in
    data ← lift (select_record records selected_id);
    let qr_base64 := generate_qr_base64 data in
    mret (render_template "id_preview.html" records data qr_base64 is_new).

(** ** Sequences of calls *)

(** The file after a computation, whether it returned or raised. *)
Definition disk_after {A} (m : IO A) (d : disk) : disk := (m d).2.

(** The file after a sequence of [log_to_excel] calls, each with the
    time of the call and the submitted dictionary. *)
Definition log_all (calls : list (datetime * dict)) (d : disk) : disk :=
  foldl (λ d call, disk_after (log_to_excel call.1 call.2) d) d calls.

(** The nine keys [log_to_excel] reads with [data[...]]. *)
Definition required_keys : list string :=
  ["id_number"; "full_name"; "nickname"; "position"; "office";
   "contact_name"; "contact_number"; "address"; "photo_filename"].

(** The dictionary [get_all_records] returns for a dictionary logged at
    time [now]. *)
Definition logged_record (now : datetime) (data : dict) : dict :=
  <["date" := Py.Str (strftime_Ymd_HM now)]>
    (filter (λ kv, kv.1 ∈ required_keys) data).

(** A dictionary that has all of [required_keys]. *)
Definition complete (data : dict) : Prop :=
  Forall (λ k, is_Some (data !! k)) required_keys.

#[global] Instance complete_dec data : Decision (complete data).
Proof. unfold complete. apply _. Defined.

(** The header row as [log_to_excel] leaves it in a new file. *)
Definition header_row : list Cell :=
  map (λ h, {| value := Py.Str h;
               font := Some {| bold := true; color := "004422" |} |})
      EXCEL_HEADERS.

(** A row whose values are the ten column names. *)
Definition is_header (row : list Cell) : Prop :=
  map value row = Py.Str <$> EXCEL_HEADERS.

#[global] Instance is_header_dec row : Decision (is_header row).
Proof. unfold is_header. apply _. Defined.

(** The lines of a text, split at every newline. *)
Fixpoint lines (s : string) : list string :=
  match s with
  | "" => [""]
  | String c s' =>
      if Ascii.eqb c "010" then "" :: lines s'
      else match lines s' with
           | [] => [String c ""]
           | l :: ls => String c l :: ls
           end
  end.

(** Whether a text contains a newline. *)
Fixpoint has_newline (s : string) : bool :=
  match s with
  | "" => false
  | String c s' => Ascii.eqb c "010" || has_newline s'
  end.

(** ** Notions used by the statements *)

(** The seven lines of the QR text for six field values. *)
Definition template (v1 v2 v3 v4 v5 v6 : Py.value) : list string :=
  ["MUNICIPALITY OF BOAC ID";
   "----------------------";
   "ID NO: " +:+ Py.str v1;
   "NAME: " +:+ Py.str v2;
   "POSITION: " +:+ Py.str v3;
   "OFFICE: " +:+ Py.str v4;
   "EMERGENCY: " +:+ Py.str v5 +:+ " (" +:+ Py.str v6 +:+ ")"].

(** The workbook a call of [log_to_excel] works on: the saved one, or a
    new one with the header row. *)
Definition opened (d : disk) : Workbook :=
  match d with
  | Some wb => wb
  | None => {| active := {| title := "ID Records"; rows := [header_row] |} |}
  end.

(** The row written for a complete dictionary: the timestamp, then the
    nine values in the order of [required_keys]. *)
Definition logged_row (now : datetime) (data : dict) : list Py.value :=
  Py.Str (strftime_Ymd_HM now) :: map (Py.get data) required_keys.

(** The file is absent, or it has at least its first row. *)
Definition initialised (d : disk) : Prop :=
  match d with
  | None => True
  | Some wb => rows (active wb) ≠ []
  end.

(** Row 1 is the header row and no row below it is one. *)
Definition headed (wb : Workbook) : Prop :=
  ∃ rest, rows (active wb) = header_row :: rest ∧
          Forall (λ row, ¬ is_header row) rest.

(** Every row of the saved sheet has ten cells. *)
Definition ten_columns (d : disk) : Prop :=
  match d with
  | None => True
  | Some wb => Forall (λ row, length row = 10) (rows (active wb))
  end.

(** ** Sample inputs *)

(** The record of the round-trip scenario, with the three fields the
    scenario leaves open. *)
Definition juan (nickname address photo_filename : Py.value) : dict :=
  <["id_number" := Py.Str "00123"]> (
  <["full_name" := Py.Str "JUAN DELA CRUZ"]> (
  <["nickname" := nickname]> (
  <["position" := Py.Str "CLERK"]> (
  <["office" := Py.Str "TREASURY"]> (
  <["contact_name" := Py.Str "MARIA CRUZ"]> (
  <["contact_number" := Py.Str "09171234567"]> (
  <["address" := address]> (
  <["photo_filename" := photo_filename]> ∅)))))))).

(** A form submitted with the [id_number] input left blank. *)
Definition blank_id (full_name : string) : dict :=
  <["id_number" := Py.Str ""]> (
  <["full_name" := Py.Str full_name]> (
  juan (Py.Str "") (Py.Str "BOAC") (Py.Str "default.png"))).

Definition juan_sample : dict :=
  juan (Py.Str "JUAN") (Py.Str "BOAC") (Py.Str "default.png").

(** A second card issued under the same [id_number]. *)
Definition juan_reissued : dict :=
  juan (Py.Str "JOHNNY") (Py.Str "BOAC") (Py.Str "00123_120001.png").

Definition noon : datetime :=
  {| year := 2024; month := 3; day := 9; hour := 12; minute := 0;
     second := 41; microsecond := 250 |}.

Definition sample_calls : list (datetime * dict) :=
  [(noon, juan_sample); (noon, blank_id "ANA REYES"); (noon, juan_reissued)].

Definition sample_records : list dict :=
  map (λ call, logged_record call.1 call.2) sample_calls.

(** ** Text normalisation *)

(** Form texts are taken to be ASCII.  On ASCII [str.isspace] holds of
    the characters 9 to 13 and 28 to 32, and [str.upper] maps [a-z] to
    [A-Z] and keeps every other character; beyond ASCII both follow the
    Unicode tables, which are outside the model. *)
Definition isspace (c : ascii) : bool :=
  let n := N_of_ascii c in
  ((9 <=? n) && (n <=? 13) || (28 <=? n) && (n <=? 32))%N.

Definition islower (c : ascii) : bool :=
  let n := N_of_ascii c in ((97 <=? n) && (n <=? 122))%N.

Definition upper_char (c : ascii) : ascii :=
  if islower c then ascii_of_N (N_of_ascii c - 32) else c.

(** [s.upper()]. *)
Fixpoint upper (s : string) : string :=
  match s with
  | "" => ""
  | String c s' => String (upper_char c) (upper s')
  end.

(** [s.lstrip()] and [s.rstrip()]. *)
Fixpoint lstrip (s : string) : string :=
  match s with
  | "" => ""
  | String c s' => if isspace c then lstrip s' else s
  end.

Fixpoint rstrip (s : string) : string :=
  match s with
  | "" => ""
  | String c s' =>
      match rstrip s' with
      | "" => if isspace c then "" else String c ""
      | r => String c r
      end
  end.

(** [s.strip()]. *)
Definition strip (s : string) : string := lstrip (rstrip s).

(** No lower-case letter, and no white space at either end. *)
Fixpoint no_lower (s : string) : bool :=
  match s with
  | "" => true
  | String c s' => negb (islower c) && no_lower s'
  end.

Definition head_space (s : string) : bool :=
  match s with
  | "" => false
  | String c _ => isspace c
  end.

Fixpoint last_space (s : string) : bool :=
  match s with
  | "" => false
  | String c "" => isspace c
  | String _ s' => last_space s'
  end.

(** ** The generate route *)

(** An uploaded file of [request.files]: its [filename], empty when the
    browser sent none, and its content. *)
Record FileStorage : Type := { filename : string; stream : string }.

(** The upload folder.  Its state and what [file.save] does to it
    belong to the operating system and are parameters: [save_upload
    name f] stands for [f.save(os.path.join(UPLOAD_FOLDER, name))],
    which may raise. *)
Record Uploads : Type := {
  folder : Type;
  save_upload : string → FileStorage → folder → Py.result unit * folder
}.

(** [redirect(url_for(endpoint, **values))] with the messages flashed
    before it, as (message, category). *)
Record Redirect : Type := {
  target : string;
  url_values : list (string * Py.value);
  flashes : list (string * string)
}.

(** [request.form.get(k, default)]. *)
Definition form_get (form : gmap string string) (k default : string)
  : string :=
  match form !! k with
  | Some s => s
  | None => default
  end.

(** [t.strftime('%H%M%S')]. *)
Definition strftime_HMS (t : datetime) : string :=
  pad2 (hour t) +:+ pad2 (minute t) +:+ pad2 (second t).

(** The dictionary [generate_id] builds from the form. *)
Definition form_data (form : gmap string string)
    (id_number full_name photo_filename : string) : dict :=
  <["id_number" := Py.Str id_number]> (
  <["full_name" := Py.Str full_name]> (
  <["nickname" := Py.Str (upper (strip (form_get form "nickname" "")))]> (
  <["position" := Py.Str (upper (strip (form_get form "position" "")))]> (
  <["office" := Py.Str (upper (strip (form_get form "office" "")))]> (
  <["contact_name" :=
      Py.Str (upper (strip (form_get form "contact_name" "")))]> (
  <["contact_number" := Py.Str (strip (form_get form "contact_number" ""))]> (
  <["address" := Py.Str (upper (strip (form_get form "address" "")))]> (
  <["photo_filename" := Py.Str photo_filename]> ∅)))))))).

(** [generate_id] for a logged-in user.  [now_photo] and [now_log] are
    the values of the two [datetime.now()] calls, the one that names the
    photo and the one in [log_to_excel]. *)
Definition generate_id (up : Uploads) (now_photo now_log : datetime)
    (form : gmap string string) (files : gmap string FileStorage)
    (d : disk) (u : folder up) : Py.result Redirect * disk * folder up :=
  let id_number := upper (strip (form_get form "id_number" "")) in
  let full_name := upper (strip (form_get form "full_name" "")) in
  let photo_filename := "default.png" in
  let file := files !! "photo_file" in
  let '(saved, photo_filename, u) :=
    match file with
    | Some f =>
        if negb (String.eqb (filename f) "") then
          let timestamp := strftime_HMS now_photo in
          let photo_filename := id_number +:+ "_" +:+ timestamp +:+ ".png" in
          let '(saved, u) := save_upload up photo_filename f u in
          (saved, photo_filename, u)
        else (Py.Ok tt, photo_filename, u)
    | None => (Py.Ok tt, photo_filename, u)
    end in
  match saved with
  | Py.Raise e => (Py.Raise e, d, u)
  | Py.Ok _ =>
      let data := form_data form id_number full_name photo_filename in
      match log_to_excel now_log data d with
      | (Py.Raise e, d) => (Py.Raise e, d, u)
      | (Py.Ok _, d) =>
          (Py.Ok {| target := "id_preview";
                    url_values := [("selected_id", Py.Str id_number);
                                   ("is_new", Py.Bool true)];
                    flashes := [("ID for " +:+ full_name +:+ " is ready!",
                                 "success")] |},
           d, u)
      end
  end.

(** The query parameters of the request a browser sends when it follows
    a redirect: [url_for] renders every value with [str]. *)
Definition query_of (r : Redirect) : gmap string string :=
  list_to_map (prod_map id Py.str <$> url_values r).

(** The normalised id and name of a form, and the name given to a
    photo uploaded at time [now]. *)
Definition form_id (form : gmap string string) : string :=
  upper (strip (form_get form "id_number" "")).

Definition form_name (form : gmap string string) : string :=
  upper (strip (form_get form "full_name" "")).

Definition photo_name (now : datetime) (form : gmap string string) : string :=
  form_id form +:+ "_" +:+ strftime_HMS now +:+ ".png".

(** What [generate_id] answers when it returns. *)
Definition generated (form : gmap string string) : Redirect :=
  {| target := "id_preview";
     url_values := [("selected_id", Py.Str (form_id form));
                    ("is_new", Py.Bool true)];
     flashes := [("ID for " +:+ form_name form +:+ " is ready!",
                  "success")] |}.

(** Two upload folders for the examples: one that keeps every saved
    file, and one where every save fails. *)
Definition kept_uploads : Uploads :=
  {| folder := list (string * string);
     save_upload name f u := (Py.Ok tt, (name, stream f) :: u) |}.

Definition failing_uploads : Uploads :=
  {| folder := unit;
     save_upload name f u := (Py.Raise Py.FileNotFoundError, u) |}.

(** A submitted form and an uploaded photo. *)
Definition ana_form : gmap string string :=
  <["id_number" := " a-17 "]> (<["full_name" := "Ana Reyes"]> (
  <["position" := "nurse"]> (<["contact_number" := " 0917 555 "]> ∅))).

Definition ana_photo : gmap string FileStorage :=
  {["photo_file" := {| filename := "ana.jpg"; stream := "JFIF" |}]}.

(** A form that reissues the card of the round-trip scenario. *)
Definition reissue_form : gmap string string :=
  <["id_number" := "00123"]> (<["full_name" := "juan dela cruz"]> ∅).

(** The file after that form has been logged below [sample_calls]. *)
Definition reissued_disk : disk :=
  disk_after
    (log_to_excel noon
       (form_data reissue_form (form_id reissue_form)
          (form_name reissue_form) "default.png"))
    (log_all sample_calls None).

(** ** The batch route *)

(** The values of a record once [batch_view] has stored the QR code in
    it: the fields read from the sheet, and the code under
    [qr_base64]. *)
Inductive batch_value : Type :=
| Field (v : Py.value)
| QRImage (q : QRCode).

(** [res['qr_base64'] = generate_qr_base64(res)]. *)
Definition with_qr (res : dict) : gmap string batch_value :=
  <["qr_base64" := QRImage (generate_qr_base64 res)]> (Field <$> res).

(** [render_template("batch_view.html", records=records, ...)]. *)
Record BatchPage : Type := {
  batch_template : string;
  batch_records : list (gmap string batch_value)
}.

Definition batch_view : IO BatchPage :=
  records ← get_all_records;
  let records := with_qr <$> records in
  mret {| batch_template := "batch_view.html"; batch_records := records |}.

(** ** Accounts *)

(** A row of the [User] table; [password] holds the stored hash. *)
Record User : Type := { user_id : nat; username : string; password : string }.

Inductive http_method : Type := GET | POST.

(** The part of a request the account routes read. *)
Record Request : Type := { method : http_method; form : gmap string string }.

(** What the account routes can raise: whatever [flask_bcrypt] raised,
    and the [IntegrityError] of a commit that violates
    [nullable=False]. *)
Inductive auth_exn : Type := BcryptError | IntegrityError.

(** The two [flask_bcrypt] calls, as parameters: hashing is salted and
    both calls may raise, for instance on a missing password. *)
Record Bcrypt : Type := {
  generate_password_hash : option string → auth_exn + string;
  check_password_hash : string → option string → auth_exn + bool
}.

(** A redirect or a rendered template, with the flashed messages. *)
Inductive Page : Type :=
| Redirected (r : Redirect)
| Rendered (template : string) (flashed : list (string * string)).

(** [User.query.filter_by(username=name).first()]; no row has a null
    username, so a missing form field finds nothing. *)
Definition first_by_username (users : list User) (name : option string)
  : option User :=
  match name with
  | Some n => List.find (λ u, String.eqb (username u) n) users
  | None => None
  end.

(** The key SQLite gives to a new row: one more than the largest. *)
Definition next_id (users : list User) : nat :=
  S (foldr Nat.max 0 (user_id <$> users)).

(** [load_user]: the row whose key the session holds, if any. *)
Definition load_user (users : list User) (session : option nat)
  : option User :=
  match session with
  | Some i => List.find (λ u, Nat.eqb (user_id u) i) users
  | None => None
  end.

Definition is_authenticated (users : list User) (session : option nat)
  : bool :=
  bool_decide (is_Some (load_user users session)).

(** [signup]: the answer and the table after the request. *)
Definition signup (bc : Bcrypt) (req : Request) (users : list User)
  : (auth_exn + Page) * list User :=
  match method req with
  | POST =>
      let name := form req !! "username" in
      match generate_password_hash bc (form req !! "password") with
      | inl e => (inl e, users)
      | inr hashed_pw =>
          match first_by_username users name with
          | Some _ =>
              (inr (Redirected {| target := "signup"; url_values := [];
                       flashes := [("Username exists!", "danger")] |}),
               users)
          | None =>
              match name with
              | None => (inl IntegrityError, users)
              | Some n =>
                  let new_user :=
                    {| user_id := next_id users; username := n;
                       password := hashed_pw |} in
                  (inr (Redirected {| target := "login"; url_values := [];
                           flashes := [("Account created!", "success")] |}),
                   users ++ [new_user])
              end
          end
      end
  | GET => (inr (Rendered "signup.html" []), users)
  end.

(** [login]: the answer and the session after the request; the session
    holds the key of the logged-in user. *)
Definition login (bc : Bcrypt) (req : Request) (users : list User)
    (session : option nat) : (auth_exn + Page) * option nat :=
  let to_index :=
    Redirected {| target := "index"; url_values := []; flashes := [] |} in
  if is_authenticated users session then (inr to_index, session)
  else
    match method req with
    | POST =>
        match first_by_username users (form req !! "username") with
        | Some user =>
            match check_password_hash bc (password user)
                    (form req !! "password") with
            | inl e => (inl e, session)
            | inr true => (inr to_index, Some (user_id user))
            | inr false =>
                (inr (Rendered "login.html"
                        [("Invalid credentials.", "danger")]), session)
            end
        | None =>
            (inr (Rendered "login.html"
                    [("Invalid credentials.", "danger")]), session)
        end
    | GET => (inr (Rendered "login.html" []), session)
    end.

(** [logout]. *)
Definition logout (session : option nat) : Page * option nat :=
  (Redirected {| target := "login"; url_values := []; flashes := [] |},
   None).

(** A hashing scheme for the examples: the hash of a password is the
    password behind a marker, and a missing password raises. *)
Definition toy_bcrypt : Bcrypt :=
  {| generate_password_hash pw :=
       match pw with
       | Some p => inr ("$2b$" +:+ p)
       | None => inl BcryptError
       end;
     check_password_hash h pw :=
       match pw with
       | Some p => inr (String.eqb h ("$2b$" +:+ p))
       | None => inl BcryptError
       end |}.

Definition post (fields : list (string * string)) : Request :=
  {| method := POST; form := list_to_map fields |}.

(** A table with two accounts, and two forms. *)
Definition sample_users : list User :=
  [{| user_id := 1; username := "maria"; password := "$2b$pw1" |};
   {| user_id := 2; username := "jose"; password := "$2b$pw2" |}].

Definition ana_signup : Request :=
  post [("username", "ana"); ("password", "s3cret")].

Definition maria_login : Request :=
  post [("username", "maria"); ("password", "pw1")].

(** * Properties of the QR encoder *)

Section QR.

Implicit Types (data : dict) (k : string) (v : Py.value).

Lemma get_Some data k v : data !! k = Some v → Py.get data k = v.
Proof. unfold Py.get. by intros ->. Qed.

Lemma get_None data k : data !! k = None → Py.get data k = Py.None_.
Proof. unfold Py.get. by intros ->. Qed.

Lemma get_insert_eq data k v : Py.get (<[k := v]> data) k = v.
Proof. unfold Py.get. by rewrite lookup_insert_eq. Qed.

Lemma get_insert_ne data k k' v :
  k ≠ k' → Py.get (<[k := v]> data) k' = Py.get data k'.
Proof. unfold Py.get. intros ?. by rewrite lookup_insert_ne. Qed.

(** The payload is a function of the rendered six fields. *)
Lemma qr_content_ext data1 data2 :
  Forall (λ k, Py.str (Py.get data1 k) = Py.str (Py.get data2 k))
         payload_fields →
  qr_content data1 = qr_content data2.
Proof.
  unfold payload_fields. intros H.
  repeat (apply Forall_cons_1 in H as [? H]).
  unfold qr_content. congruence.
Qed.

Lemma has_newline_app s1 s2 :
  has_newline (s1 +:+ s2) = has_newline s1 || has_newline s2.
Proof.
  induction s1 as [|c s1 IH]; simpl; [done|].
  by rewrite IH, orb_assoc.
Qed.

Lemma lines_single s : has_newline s = false → lines s = [s].
Proof.
  induction s as [|c s IH]; cbn; [done|].
  intros [Hc Hs]%orb_false_elim. rewrite Hc. by rewrite (IH Hs).
Qed.

Lemma lines_app_nl s rest :
  has_newline s = false → lines (s +:+ nl +:+ rest) = s :: lines rest.
Proof.
  induction s as [|c s IH]; simpl; [done|].
  intros [Hc Hs]%orb_false_elim. rewrite Hc. by rewrite (IH Hs).
Qed.

Lemma lines_concat l ls :
  Forall (λ s, has_newline s = false) (l :: ls) →
  lines (String.concat nl (l :: ls)) = l :: ls.
Proof.
  revert l. induction ls as [|l' ls IH]; intros l Hl.
  - cbn. apply lines_single. by apply Forall_cons_1 in Hl as [? _].
  - apply Forall_cons_1 in Hl as [Hl Hls].
    change (String.concat nl (l :: l' :: ls))
      with (l +:+ nl +:+ String.concat nl (l' :: ls)).
    rewrite (lines_app_nl _ _ Hl). by rewrite (IH _ Hls).
Qed.

(** C1: for a mapping that supplies the six payload fields, the text
    put into the QR code is the seven lines of the template joined by
    newlines, each field rendered by [str], in the fixed order; when
    no field holds a newline these seven are all its lines. *)
Theorem qr_payload_template data v1 v2 v3 v4 v5 v6 :
  data !! "id_number" = Some v1 →
  data !! "full_name" = Some v2 →
  data !! "position" = Some v3 →
  data !! "office" = Some v4 →
  data !! "contact_name" = Some v5 →
  data !! "contact_number" = Some v6 →
  qr_data (generate_qr_base64 data) =
    String.concat nl (template v1 v2 v3 v4 v5 v6) ∧
  (Forall (λ v, has_newline (Py.str v) = false) [v1; v2; v3; v4; v5; v6] →
   lines (qr_data (generate_qr_base64 data)) =
     template v1 v2 v3 v4 v5 v6 ∧
   length (lines (qr_data (generate_qr_base64 data))) = 7).
Proof.
  intros H1 H2 H3 H4 H5 H6. cbn [generate_qr_base64 qr_data].
  assert (qr_content data = String.concat nl (template v1 v2 v3 v4 v5 v6))
    as E.
  { unfold qr_content.
    rewrite (get_Some _ _ _ H1), (get_Some _ _ _ H2), (get_Some _ _ _ H3),
      (get_Some _ _ _ H4), (get_Some _ _ _ H5), (get_Some _ _ _ H6).
    reflexivity. }
  split; [exact E|]. intros Hnl.
  apply Forall_cons_1 in Hnl as [N1 Hnl].
  apply Forall_cons_1 in Hnl as [N2 Hnl].
  apply Forall_cons_1 in Hnl as [N3 Hnl].
  apply Forall_cons_1 in Hnl as [N4 Hnl].
  apply Forall_cons_1 in Hnl as [N5 Hnl].
  apply Forall_cons_1 in Hnl as [N6 _].
  assert (lines (qr_content data) = template v1 v2 v3 v4 v5 v6) as El.
  { rewrite E. apply lines_concat. unfold template.
    repeat (apply Forall_cons; split;
            [repeat (first [rewrite has_newline_app | progress simpl]);
             by rewrite ?N1, ?N2, ?N3, ?N4, ?N5, ?N6|]).
    apply Forall_nil_2. }
  split; [exact El|]. by rewrite El.
Qed.

(** C9: two mappings that agree on the six payload fields get the same
    payload text and the same QR code, whatever else they hold. *)
Theorem qr_depends_on_payload_fields data1 data2 :
  Forall (λ k, data1 !! k = data2 !! k) payload_fields →
  qr_content data1 = qr_content data2 ∧
  generate_qr_base64 data1 = generate_qr_base64 data2.
Proof.
  intros H.
  assert (qr_content data1 = qr_content data2) as E.
  { apply qr_content_ext. eapply Forall_impl; [exact H|].
    intros k Hk. unfold Py.get. by rewrite Hk. }
  unfold generate_qr_base64. by rewrite E.
Qed.



Example qr_missing_id_number :
  lines (qr_content (<["full_name" := Py.Str "ANA REYES"]> ∅)) =
    ["MUNICIPALITY OF BOAC ID"; "----------------------";
     "ID NO: None"; "NAME: ANA REYES"; "POSITION: None";
     "OFFICE: None"; "EMERGENCY: None (None)"].
Proof. vm_compute. reflexivity. Qed.

End QR.

(** * Properties of the record store *)

Section Store.

Implicit Types (data : dict) (now : datetime) (d : disk) (wb : Workbook).

(** ** The timestamp *)

Lemma strftime_length now : String.length (strftime_Ymd_HM now) = 16.
Proof. reflexivity. Qed.

Lemma strftime_not_column_name now :
  strftime_Ymd_HM now ≠ "Date Generated".
Proof.
  intros E. apply (f_equal String.length) in E.
  rewrite strftime_length in E. discriminate E.
Qed.

Lemma strftime_minute_resolution now now' :
  year now' = year now → month now' = month now → day now' = day now →
  hour now' = hour now → minute now' = minute now →
  strftime_Ymd_HM now' = strftime_Ymd_HM now.
Proof. unfold strftime_Ymd_HM. by intros -> -> -> -> ->. Qed.

Lemma digit_inj a b : digit a = digit b → (a mod 10 = b mod 10)%N.
Proof.
  unfold digit. intros E. apply (f_equal N_of_ascii) in E.
  pose proof (N.mod_upper_bound a 10 ltac:(lia)).
  pose proof (N.mod_upper_bound b 10 ltac:(lia)).
  rewrite !N_ascii_embedding in E by lia. lia.
Qed.

Lemma decimal4 a :
  (a < 10000 →
   a = 1000 * ((a / 1000) mod 10) + 100 * ((a / 100) mod 10)
       + 10 * ((a / 10) mod 10) + a mod 10)%N.
Proof.
  intros Ha.
  assert (a / 100 = a / 10 / 10)%N as -> by (by rewrite N.Div0.div_div).
  assert (a / 1000 = a / 10 / 10 / 10)%N as ->
    by (by rewrite !N.Div0.div_div).
  pose proof (N.div_mod a 10 ltac:(lia)) as H1.
  pose proof (N.div_mod (a / 10) 10 ltac:(lia)) as H2.
  pose proof (N.div_mod (a / 10 / 10) 10 ltac:(lia)) as H3.
  pose proof (N.div_mod (a / 10 / 10 / 10) 10 ltac:(lia)) as H4.
  assert (a / 10 / 10 / 10 / 10 = 0)%N as H5.
  { rewrite !N.Div0.div_div. apply N.div_small. lia. }
  rewrite H5 in H4.
  generalize dependent (a mod 10)%N.
  generalize dependent ((a / 10) mod 10)%N.
  generalize dependent ((a / 10 / 10) mod 10)%N.
  generalize dependent ((a / 10 / 10 / 10) mod 10)%N.
  generalize dependent (a / 10 / 10 / 10)%N.
  generalize dependent (a / 10 / 10)%N.
  generalize dependent (a / 10)%N. intros. lia.
Qed.

Lemma pad4_inj a b :
  (a < 10000)%N → (b < 10000)%N → pad4 a = pad4 b → a = b.
Proof.
  unfold pad4, pad2. intros Ha Hb E.
  injection E as E1%digit_inj E2%digit_inj E3%digit_inj E4%digit_inj.
  rewrite (decimal4 a Ha), (decimal4 b Hb). by rewrite E1, E2, E3, E4.
Qed.

Lemma pad2_inj a b : (a < 100)%N → (b < 100)%N → pad2 a = pad2 b → a = b.
Proof.
  intros Ha Hb E. apply pad4_inj; [lia..|].
  unfold pad4. rewrite E. f_equal; [|f_equal];
    unfold digit; by rewrite !N.div_small by lia.
Qed.

(** Two valid clock values print the same timestamp only when they
    agree up to the minute. *)
Lemma strftime_same_minute now now' :
  valid_datetime now → valid_datetime now' →
  strftime_Ymd_HM now = strftime_Ymd_HM now' →
  year now = year now' ∧ month now = month now' ∧ day now = day now' ∧
  hour now = hour now' ∧ minute now = minute now'.
Proof.
  intros (Hy & Hm & Hd & Hh & Hmi) (Hy' & Hm' & Hd' & Hh' & Hmi') E.
  unfold strftime_Ymd_HM, pad4, pad2 in E. simpl in E.
  injection E. clear E. intros.
  split_and!; [apply pad4_inj|apply pad2_inj..]; try lia;
    unfold pad4, pad2; congruence.
Qed.

(** ** One call of [log_to_excel] *)

Lemma getitem_Some data k : is_Some (data !! k) →
  Py.getitem data k = Py.Ok (Py.get data k).
Proof. intros [v Hv]. unfold Py.getitem, Py.get. by rewrite Hv. Qed.

Lemma new_row_complete now data :
  complete data →
  new_row now data =
    Py.Ok (Py.Str (strftime_Ymd_HM now) :: map (Py.get data) required_keys).
Proof.
  unfold complete, required_keys. intros H.
  repeat (apply Forall_cons_1 in H as [? H]).
  unfold new_row. by rewrite !getitem_Some.
Qed.

Lemma new_row_missing now data k :
  k ∈ required_keys → data !! k = None →
  ∃ k', k' ∈ required_keys ∧ data !! k' = None ∧
        new_row now data = Py.Raise (Py.KeyError k').
Proof.
  intros Hk Hnone. unfold new_row, Py.getitem.
  repeat (match goal with
          | |- context [mbind _ (match data !! ?key with _ => _ end)] =>
              destruct (data !! key) eqn:?;
              [ cbn [mbind Py.result_bind]
              | exists key; split_and!;
                [ unfold required_keys; repeat constructor | done | done ] ]
          end).
  exfalso. unfold required_keys in Hk.
  repeat (apply elem_of_cons in Hk as [->|Hk]); try congruence.
  by apply elem_of_nil in Hk.
Qed.

Lemma log_to_excel_complete now data d :
  complete data →
  log_to_excel now data d =
    (Py.Ok tt,
     Some {| active := ws_append (logged_row now data) (active (opened d)) |}).
Proof.
  intros Hc. unfold log_to_excel, mbind, IO_bind, path_exists, lift.
  destruct d as [wb|]; cbn -[new_row ws_append];
    by rewrite (new_row_complete _ _ Hc).
Qed.

Lemma log_to_excel_missing now data d k :
  k ∈ required_keys → data !! k = None →
  ∃ k', k' ∈ required_keys ∧ data !! k' = None ∧
        log_to_excel now data d = (Py.Raise (Py.KeyError k'), d).
Proof.
  intros Hk Hnone.
  destruct (new_row_missing now data k Hk Hnone) as (k' & Hk' & Hn' & E).
  exists k'. split_and!; [done..|].
  unfold log_to_excel, mbind, IO_bind, path_exists, lift.
  destruct d as [wb|]; cbn -[new_row ws_append]; by rewrite E.
Qed.

(** Whatever a call does, afterwards the file holds the rows of
    [opened d] followed by at most one more, or it is as before. *)
Lemma log_to_excel_cases now data d :
  log_to_excel now data d =
    (Py.Ok tt,
     Some {| active := ws_append (logged_row now data) (active (opened d)) |})
  ∨ ∃ k, log_to_excel now data d = (Py.Raise (Py.KeyError k), d).
Proof.
  destruct (decide (complete data)) as [Hc|Hn].
  - left. by apply log_to_excel_complete.
  - right. apply not_Forall_Exists in Hn; [|apply _].
    apply Exists_exists in Hn as (k & Hk & Hnone).
    apply eq_None_not_Some in Hnone.
    destruct (log_to_excel_missing now data d k Hk Hnone) as (k' & _ & _ & E).
    by exists k'.
Qed.

(** ** Reading the rows back *)

Lemma get_all_records_None :
  get_all_records None = (Py.Ok [], None).
Proof. reflexivity. Qed.

Lemma get_all_records_Some wb :
  get_all_records (Some wb) =
    (collect_records (iter_rows 2 (active wb)) [], Some wb).
Proof. reflexivity. Qed.

Lemma get_all_records_disk d : (get_all_records d).2 = d.
Proof. by destruct d. Qed.

Lemma collect_records_acc rs acc :
  collect_records rs acc = (l ← collect_records rs []; mret (acc ++ l)).
Proof.
  revert acc. induction rs as [|row rs IH]; intros acc; cbn.
  - by rewrite app_nil_r.
  - destruct (record_of_row row) as [r|e]; cbn; [|done].
    rewrite (IH (acc ++ [r])), (IH [r]).
    destruct (collect_records rs []) as [l|e]; cbn; [|done].
    by rewrite <- app_assoc.
Qed.

Lemma collect_records_snoc rs row :
  collect_records (rs ++ [row]) [] =
    (l ← collect_records rs []; r ← record_of_row row; mret (l ++ [r])).
Proof.
  induction rs as [|row' rs IH]; cbn.
  - by destruct (record_of_row row).
  - destruct (record_of_row row') as [r'|e]; cbn; [|done].
    rewrite (collect_records_acc (rs ++ [row])), IH.
    rewrite (collect_records_acc rs [r']).
    destruct (collect_records rs []) as [l|e]; cbn; [|done].
    by destruct (record_of_row row).
Qed.

Lemma iter_rows_append row ws :
  rows ws ≠ [] →
  iter_rows 2 (ws_append row ws) = iter_rows 2 ws ++ [row].
Proof.
  unfold iter_rows, ws_append, plain_row. cbn.
  destruct (rows ws) as [|hd tl]; [done|intros _].
  cbn. rewrite !drop_0, List.map_app. cbn.
  rewrite List.map_map. cbn. by rewrite List.map_id.
Qed.

Lemma record_of_logged_row now data :
  complete data →
  record_of_row (logged_row now data) = Py.Ok (logged_record now data).
Proof.
  intros Hc. cbn. f_equal. apply map_eq. intros k.
  unfold complete, required_keys in Hc.
  repeat (apply Forall_cons_1 in Hc as [[? ?] Hc]).
  remember (logged_record now data) as R eqn:ER.
  repeat (rewrite (lookup_insert _ _ k); case_decide;
          [ subst k R; unfold logged_record;
            first
              [ by rewrite lookup_insert_eq
              | rewrite lookup_insert_ne by done;
                symmetry; apply map_lookup_filter_Some; split;
                [ by erewrite get_Some
                | cbn; unfold required_keys; repeat constructor ] ]
          | ]).
  subst R. unfold logged_record.
  rewrite lookup_empty. symmetry.
  rewrite lookup_insert_ne by done.
  apply map_lookup_filter_None. right. intros v _. cbn.
  unfold required_keys. intros Hin.
  repeat (apply elem_of_cons in Hin as [->|Hin]); try done.
  by apply elem_of_nil in Hin.
Qed.

Lemma logged_record_lookup now data :
  logged_record now data !! "date" = Some (Py.Str (strftime_Ymd_HM now)) ∧
  ∀ k, k ∈ required_keys → logged_record now data !! k = data !! k.
Proof.
  unfold logged_record. split; [by rewrite lookup_insert_eq|].
  intros k Hk. rewrite lookup_insert_ne.
  - destruct (data !! k) as [v|] eqn:E.
    + by apply map_lookup_filter_Some.
    + apply map_lookup_filter_None. by left.
  - intros <-. unfold required_keys in Hk.
    repeat (apply elem_of_cons in Hk as [?|Hk]); try done.
    by apply elem_of_nil in Hk.
Qed.

(** ** Sequences of calls *)

Lemma log_all_cons call calls d :
  log_all (call :: calls) d =
    log_all calls (disk_after (log_to_excel call.1 call.2) d).
Proof. reflexivity. Qed.

Lemma opened_rows d : initialised d → rows (active (opened d)) ≠ [].
Proof. by destruct d. Qed.

Lemma collect_opened d records :
  (get_all_records d).1 = Py.Ok records →
  collect_records (iter_rows 2 (active (opened d))) [] = Py.Ok records.
Proof. by destruct d. Qed.

Lemma list_after_log now data d records :
  initialised d → complete data →
  (get_all_records d).1 = Py.Ok records →
  initialised (disk_after (log_to_excel now data) d) ∧
  (get_all_records (disk_after (log_to_excel now data) d)).1 =
    Py.Ok (records ++ [logged_record now data]).
Proof.
  intros Hi Hc Hr. unfold disk_after.
  rewrite (log_to_excel_complete _ _ _ Hc). cbn [snd].
  apply opened_rows in Hi. apply collect_opened in Hr.
  split.
  - cbn. by destruct (rows (active (opened d))).
  - rewrite get_all_records_Some. cbn [fst active].
    rewrite (iter_rows_append _ _ Hi), collect_records_snoc, Hr.
    cbn [mbind Py.result_bind].
    by rewrite (record_of_logged_row _ _ Hc).
Qed.

Lemma log_all_records calls d records :
  initialised d →
  (get_all_records d).1 = Py.Ok records →
  Forall (λ call, complete call.2) calls →
  (get_all_records (log_all calls d)).1 =
    Py.Ok (records ++ map (λ call, logged_record call.1 call.2) calls).
Proof.
  intros Hi Hr Hc. revert d records Hi Hr.
  induction Hc as [|[now data] calls Hc _ IH]; intros d records Hi Hr.
  - cbn. by rewrite app_nil_r.
  - rewrite log_all_cons. cbn [fst snd] in *.
    destruct (list_after_log now data d records Hi Hc Hr) as [Hi' Hr'].
    rewrite (IH _ _ Hi' Hr'). cbn. by rewrite <- app_assoc.
Qed.


(** ** The header row *)

Lemma header_row_is_header : is_header header_row.
Proof. reflexivity. Qed.

Lemma values_plain_row vs : map value (plain_row vs) = vs.
Proof.
  unfold plain_row. rewrite List.map_map. cbn. apply List.map_id.
Qed.

Lemma logged_row_not_header now data :
  ¬ is_header (plain_row (logged_row now data)).
Proof.
  unfold is_header. rewrite values_plain_row. unfold logged_row.
  pose proof (strftime_not_column_name now) as Hne.
  remember (strftime_Ymd_HM now) as ts. cbn. intros E.
  injection E as E _. by subst.
Qed.

Lemma headed_count wb :
  headed wb →
  head (rows (active wb)) = Some header_row ∧
  length (filter is_header (rows (active wb))) = 1.
Proof.
  intros (rest & -> & Hrest). split; [done|].
  rewrite filter_cons_True by apply header_row_is_header.
  cbn. f_equal.
  induction Hrest as [|row rest Hrow _ IH]; [done|].
  by rewrite filter_cons_False.
Qed.

Lemma log_to_excel_headed now data wb :
  headed wb →
  ∃ wb', disk_after (log_to_excel now data) (Some wb) = Some wb' ∧
         headed wb'.
Proof.
  intros Hh. unfold disk_after.
  destruct (log_to_excel_cases now data (Some wb)) as [E|[k E]];
    rewrite E; cbn [snd]; eexists; (split; [reflexivity|]); [|done].
  destruct Hh as (rest & Hrows & Hrest).
  exists (rest ++ [plain_row (logged_row now data)]). cbn.
  rewrite Hrows. split; [done|].
  apply Forall_app. split; [done|].
  apply Forall_singleton, logged_row_not_header.
Qed.

Lemma log_all_headed calls wb :
  headed wb → ∃ wb', log_all calls (Some wb) = Some wb' ∧ headed wb'.
Proof.
  revert wb. induction calls as [|[now data] calls IH]; intros wb Hh.
  - by exists wb.
  - rewrite log_all_cons. cbn [fst snd].
    destruct (log_to_excel_headed now data wb Hh) as (wb1 & -> & Hh1).
    by apply IH.
Qed.


(** C10: a call with a dictionary that lacks one of the nine keys
    raises [KeyError] for a missing key and leaves the file as it
    was: no row is added, and no file is created when there was
    none. *)
Theorem log_to_excel_missing_key_no_write now data d k :
  k ∈ required_keys →
  data !! k = None →
  ∃ k', k' ∈ required_keys ∧ data !! k' = None ∧
        log_to_excel now data d = (Py.Raise (Py.KeyError k'), d).
Proof. apply log_to_excel_missing. Qed.

End Store.

(** * Properties of the preview route *)

Section Preview.

Implicit Types (r : dict) (records : list dict) (d : disk)
  (args : gmap string string) (sel : Py.value).

(** Every dictionary [get_all_records] builds has an [id_number]. *)
Lemma record_of_row_id row r :
  record_of_row row = Py.Ok r → is_Some (r !! "id_number").
Proof.
  unfold record_of_row.
  repeat (match goal with
          | |- context [Py.index row ?i] =>
              destruct (Py.index row i); cbn [mbind Py.result_bind];
              [|discriminate]
          end).
  intros [= <-]. eexists.
  rewrite !lookup_insert_ne by done. apply lookup_insert_eq.
Qed.

Lemma collect_records_id rs acc records :
  Forall (λ r, is_Some (r !! "id_number")) acc →
  collect_records rs acc = Py.Ok records →
  Forall (λ r, is_Some (r !! "id_number")) records.
Proof.
  revert acc. induction rs as [|row rs IH]; intros acc Hacc; cbn.
  - by intros [= <-].
  - destruct (record_of_row row) as [r|e] eqn:E; cbn; [|discriminate].
    apply IH. apply Forall_app. split; [done|].
    apply Forall_singleton. by eapply record_of_row_id.
Qed.

Lemma get_all_records_id d records :
  (get_all_records d).1 = Py.Ok records →
  Forall (λ r, is_Some (r !! "id_number")) records.
Proof.
  destruct d as [wb|]; cbn.
  - by apply collect_records_id.
  - by intros [= <-].
Qed.

(** The scan returns the first dictionary whose [id_number] renders
    as the selected id. *)
Lemma next_match_first pre r post sel fallback :
  Forall (λ r', is_Some (r' !! "id_number")) (pre ++ [r]) →
  Forall (λ r', Py.str (Py.get r' "id_number") ≠ Py.str sel) pre →
  Py.str (Py.get r "id_number") = Py.str sel →
  next_match (pre ++ r :: post) sel fallback = Py.Ok r.
Proof.
  intros Hid Hpre Hr. induction Hpre as [|r' pre Hr' _ IH]; cbn.
  - apply Forall_cons_1 in Hid as [Hid _].
    rewrite (getitem_Some _ _ Hid). cbn.
    rewrite Hr. by rewrite String.eqb_refl.
  - cbn in Hid. apply Forall_cons_1 in Hid as [Hid' Hid].
    rewrite (getitem_Some _ _ Hid'). cbn.
    apply String.eqb_neq in Hr'. rewrite Hr'. by apply IH.
Qed.

Lemma next_match_none records sel fallback :
  Forall (λ r, is_Some (r !! "id_number")) records →
  Forall (λ r, Py.str (Py.get r "id_number") ≠ Py.str sel) records →
  next_match records sel fallback = Py.Ok fallback.
Proof.
  intros Hid Hno. induction Hno as [|r records Hr _ IH]; [done|]. cbn.
  apply Forall_cons_1 in Hid as [Hid' Hid].
  rewrite (getitem_Some _ _ Hid'). cbn.
  apply String.eqb_neq in Hr. rewrite Hr. by apply IH.
Qed.

Lemma last_record_Some records r :
  last records = Some r → last_record records = Py.Ok r.
Proof. unfold last_record. by intros ->. Qed.

(** The route on a file that yields no records, and on one that
    yields some. *)
Lemma id_preview_no_records args d :
  (get_all_records d).1 = Py.Ok [] →
  id_preview args d =
    (Py.Ok (redirect "index" [("No resident records found.", "info")]), d).
Proof.
  intros E. unfold id_preview, mbind, IO_bind.
  pose proof (get_all_records_disk d) as Hd.
  destruct (get_all_records d) as [res d']. cbn in E, Hd. by subst.
Qed.

Lemma id_preview_records args d records r :
  (get_all_records d).1 = Py.Ok records →
  records ≠ [] →
  select_record records (args_get args "selected_id" Py.None_) = Py.Ok r →
  id_preview args d =
    (Py.Ok (render_template "id_preview.html" records r
              (generate_qr_base64 r)
              (args_get args "is_new" (Py.Bool false))), d).
Proof.
  intros E Hne Hsel. unfold id_preview, mbind, IO_bind.
  pose proof (get_all_records_disk d) as Hd.
  destruct (get_all_records d) as [res d']. cbn in E, Hd. subst.
  rewrite bool_decide_eq_true_2 by done. cbn [negb].
  unfold lift. by rewrite Hsel.
Qed.

(** C6: on a file that is absent, or has no row below row 1,
    [get_all_records] returns the empty list and the route answers
    with the flashed notice and the redirect to the index: no
    exception and no record. *)
Theorem empty_store_redirects args d :
  d = None ∨ (∃ wb, d = Some wb ∧ (length (rows (active wb)) ≤ 1)%nat) →
  get_all_records d = (Py.Ok [], d) ∧
  id_preview args d =
    (Py.Ok (redirect "index" [("No resident records found.", "info")]), d).
Proof.
  intros Hd.
  assert (get_all_records d = (Py.Ok [], d)) as E.
  { destruct Hd as [->|(wb & -> & Hlen)]; [done|].
    rewrite get_all_records_Some. unfold iter_rows.
    destruct (rows (active wb)) as [|hd [|row rest]]; cbn in *; [done..|lia]. }
  split; [done|]. apply id_preview_no_records. by rewrite E.
Qed.





End Preview.

(** * Worked instances *)

Lemma qr_payload_template_witness :
  (juan_sample !! "id_number" = Some (Py.Str "00123") ∧
   juan_sample !! "full_name" = Some (Py.Str "JUAN DELA CRUZ") ∧
   juan_sample !! "position" = Some (Py.Str "CLERK") ∧
   juan_sample !! "office" = Some (Py.Str "TREASURY") ∧
   juan_sample !! "contact_name" = Some (Py.Str "MARIA CRUZ") ∧
   juan_sample !! "contact_number" = Some (Py.Str "09171234567")) ∧
  qr_data (generate_qr_base64 juan_sample) =
    String.concat nl
      ["MUNICIPALITY OF BOAC ID"; "----------------------";
       "ID NO: 00123"; "NAME: JUAN DELA CRUZ"; "POSITION: CLERK";
       "OFFICE: TREASURY"; "EMERGENCY: MARIA CRUZ (09171234567)"].
Proof.
  assert (juan_sample !! "id_number" = Some (Py.Str "00123")) as H1
    by (vm_compute; reflexivity).
  assert (juan_sample !! "full_name" = Some (Py.Str "JUAN DELA CRUZ")) as H2
    by (vm_compute; reflexivity).
  assert (juan_sample !! "position" = Some (Py.Str "CLERK")) as H3
    by (vm_compute; reflexivity).
  assert (juan_sample !! "office" = Some (Py.Str "TREASURY")) as H4
    by (vm_compute; reflexivity).
  assert (juan_sample !! "contact_name" = Some (Py.Str "MARIA CRUZ")) as H5
    by (vm_compute; reflexivity).
  assert (juan_sample !! "contact_number" = Some (Py.Str "09171234567")) as H6
    by (vm_compute; reflexivity).
  split; [repeat split; assumption|].
  exact (proj1 (qr_payload_template juan_sample _ _ _ _ _ _ H1 H2 H3 H4 H5 H6)).
Defined.

Lemma qr_depends_on_payload_fields_witness :
  Forall (λ k, juan_sample !! k = juan_reissued !! k) payload_fields ∧
  qr_content juan_sample = qr_content juan_reissued ∧
  generate_qr_base64 juan_sample = generate_qr_base64 juan_reissued.
Proof.
  assert (Forall (λ k, juan_sample !! k = juan_reissued !! k) payload_fields)
    as H by (apply (bool_decide_unpack _); vm_compute; reflexivity).
  split; [exact H|].
  exact (qr_depends_on_payload_fields juan_sample juan_reissued H).
Defined.




Lemma log_to_excel_missing_key_no_write_witness :
  "address" ∈ required_keys ∧
  delete "address" juan_sample !! "address" = None ∧
  ∃ k', k' ∈ required_keys ∧
        delete "address" juan_sample !! k' = None ∧
        log_to_excel noon (delete "address" juan_sample) None =
          (Py.Raise (Py.KeyError k'), None).
Proof.
  assert ("address" ∈ required_keys) as Hk
    by (apply (bool_decide_unpack _); vm_compute; reflexivity).
  assert (delete "address" juan_sample !! "address" = None) as Hn
    by (vm_compute; reflexivity).
  split; [exact Hk|]. split; [exact Hn|].
  exact (log_to_excel_missing_key_no_write noon _ None "address" Hk Hn).
Defined.

Lemma empty_store_redirects_witness :
  ((None : disk) = None ∨
   ∃ wb, (None : disk) = Some wb ∧ (length (rows (active wb)) ≤ 1)%nat) ∧
  get_all_records None = (Py.Ok [], None) ∧
  id_preview {["selected_id" := "00123"]} None =
    (Py.Ok (redirect "index" [("No resident records found.", "info")]), None).
Proof.
  assert ((None : disk) = None ∨
          ∃ wb, (None : disk) = Some wb ∧
                (length (rows (active wb)) ≤ 1)%nat) as H
    by (left; reflexivity).
  split; [exact H|].
  exact (empty_store_redirects {["selected_id" := "00123"]} None H).
Defined.



(** * Further properties of the record store and of the preview route *)

Section Frame.

Implicit Types (data : dict) (now : datetime) (d : disk) (wb : Workbook)
  (r : dict) (records : list dict) (args : gmap string string).

Lemma batch_view_unfold d :
  batch_view d =
    match (get_all_records d).1 with
    | Py.Ok records =>
        (Py.Ok {| batch_template := "batch_view.html";
                  batch_records := with_qr <$> records |}, d)
    | Py.Raise e => (Py.Raise e, d)
    end.
Proof.
  unfold batch_view, mbind, IO_bind.
  pose proof (get_all_records_disk d) as Hd.
  destruct (get_all_records d) as [[records|e] d']; cbn in *; by subst.
Qed.

Lemma id_preview_unfold args d :
  id_preview args d =
    match (get_all_records d).1 with
    | Py.Ok [] =>
        (Py.Ok (redirect "index" [("No resident records found.", "info")]), d)
    | Py.Ok records =>
        match select_record records (args_get args "selected_id" Py.None_)
        with
        | Py.Ok r =>
            (Py.Ok (render_template "id_preview.html" records r
                      (generate_qr_base64 r)
                      (args_get args "is_new" (Py.Bool false))), d)
        | Py.Raise e => (Py.Raise e, d)
        end
    | Py.Raise e => (Py.Raise e, d)
    end.
Proof.
  unfold id_preview, mbind, IO_bind.
  pose proof (get_all_records_disk d) as Hd.
  destruct (get_all_records d) as [[records|e] d']; cbn in *; subst;
    [|done].
  destruct records as [|r0 records]; [done|].
  rewrite bool_decide_eq_true_2 by done. cbn [negb]. unfold lift.
  by destruct (select_record _ _).
Qed.

(** X1: the three reading routes never write: whatever the file holds
    and whatever the request, the file after [get_all_records],
    [id_preview] and [batch_view] is the file before, whether the call
    returns or raises. *)
Theorem reading_routes_leave_file args d :
  (get_all_records d).2 = d ∧
  (id_preview args d).2 = d ∧
  (batch_view d).2 = d.
Proof.
  split_and!.
  - apply get_all_records_disk.
  - rewrite id_preview_unfold.
    destruct (get_all_records d).1 as [[|r0 records]|e]; [done| |done].
    by destruct (select_record _ _).
  - rewrite batch_view_unfold. by destruct (get_all_records d).1.
Qed.

Lemma next_match_elem records sel fallback r :
  next_match records sel fallback = Py.Ok r →
  r ∈ records ∨ r = fallback.
Proof.
  induction records as [|r' records IH]; cbn.
  - intros [= <-]. by right.
  - destruct (Py.getitem r' "id_number") as [v|e]; cbn; [|done].
    destruct (String.eqb _ _).
    + intros [= <-]. left. apply list_elem_of_here.
    + intros H. destruct (IH H) as [Hin| ->]; [left|by right].
      by apply list_elem_of_further.
Qed.

Lemma last_record_elem records r :
  last_record records = Py.Ok r → r ∈ records.
Proof.
  unfold last_record. destruct (last records) as [r'|] eqn:E; [|done].
  intros [= <-]. rewrite last_lookup in E.
  by eapply list_elem_of_lookup_2.
Qed.

Lemma select_record_elem records sel r :
  select_record records sel = Py.Ok r → r ∈ records.
Proof.
  unfold select_record. destruct (Py.truthy sel).
  - destruct (last_record records) as [fb|e] eqn:E; cbn; [|done].
    intros [Hin| ->]%next_match_elem; [done|].
    by apply last_record_elem.
  - apply last_record_elem.
Qed.

(** X2: when [id_preview] renders the page, the record it shows is one
    of the records read from the file, the list it passes is that whole
    list, the QR code is the code of the shown record, and the file is
    untouched. *)
Theorem preview_shows_listed_record args d d' template records r qr is_new :
  id_preview args d =
    (Py.Ok (render_template template records r qr is_new), d') →
  d' = d ∧
  template = "id_preview.html" ∧
  (get_all_records d).1 = Py.Ok records ∧
  r ∈ records ∧
  qr = generate_qr_base64 r ∧
  is_new = args_get args "is_new" (Py.Bool false).
Proof.
  rewrite id_preview_unfold.
  destruct (get_all_records d).1 as [[|r0 rs]|e]; [done| |done].
  destruct (select_record _ _) as [r'|e] eqn:E; [|done].
  intros [= <- <- <- <- <- <-]. split_and!; try done.
  by apply select_record_elem in E.
Qed.

End Frame.

Lemma preview_shows_listed_record_witness :
  id_preview {["selected_id" := "00123"]} (log_all sample_calls None) =
    (Py.Ok (render_template "id_preview.html" sample_records
              (logged_record noon juan_sample)
              (generate_qr_base64 (logged_record noon juan_sample))
              (Py.Bool false)),
     log_all sample_calls None) ∧
  logged_record noon juan_sample ∈ sample_records.
Proof.
  assert (id_preview {["selected_id" := "00123"]} (log_all sample_calls None) =
    (Py.Ok (render_template "id_preview.html" sample_records
              (logged_record noon juan_sample)
              (generate_qr_base64 (logged_record noon juan_sample))
              (Py.Bool false)),
     log_all sample_calls None)) as E by (vm_compute; reflexivity).
  split; [exact E|].
  exact (proj1 (proj2 (proj2 (proj2
    (preview_shows_listed_record _ _ _ _ _ _ _ _ E))))).
Defined.

Section Invariant.

Implicit Types (data : dict) (now : datetime) (d : disk) (wb : Workbook)
  (r : dict) (records : list dict) (args : gmap string string).

Lemma record_of_row_ten (row : list Py.value) :
  length row = 10 → ∃ r, record_of_row row = Py.Ok r.
Proof.
  intros Hlen.
  do 10 (destruct row as [|? row]; [discriminate Hlen|]).
  destruct row; [|discriminate Hlen]. by eexists.
Qed.

Lemma collect_records_ten (rs : list (list Py.value)) acc :
  Forall (λ row, length row = 10) rs →
  ∃ records, collect_records rs acc = Py.Ok records.
Proof.
  intros Hrs. revert acc.
  induction Hrs as [|row rs Hrow _ IH]; intros acc; cbn -[record_of_row].
  - by eexists.
  - destruct (record_of_row_ten row Hrow) as [r ->].
    cbn -[record_of_row]. apply IH.
Qed.

Lemma get_all_records_ten d :
  ten_columns d → ∃ records, (get_all_records d).1 = Py.Ok records.
Proof.
  destruct d as [wb|]; [|by eexists]. cbn -[collect_records].
  intros Hten. apply collect_records_ten. unfold iter_rows.
  apply Forall_fmap. apply Forall_drop.
  eapply Forall_impl; [exact Hten|]. intros row Hrow. cbn.
  by rewrite length_map.
Qed.

Lemma log_to_excel_ten now data d :
  ten_columns d → ten_columns (disk_after (log_to_excel now data) d).
Proof.
  intros Hten. unfold disk_after.
  destruct (log_to_excel_cases now data d) as [E|[k E]]; rewrite E;
    [|done].
  cbn. apply Forall_app. split.
  - destruct d as [wb|]; [done|]. cbn. by apply Forall_singleton.
  - by apply Forall_singleton.
Qed.

Lemma log_all_ten calls d : ten_columns d → ten_columns (log_all calls d).
Proof.
  revert d. induction calls as [|[now data] calls IH]; intros d Hten;
    [done|].
  rewrite log_all_cons. by apply IH, log_to_excel_ten.
Qed.

Lemma select_record_total records sel :
  records ≠ [] →
  Forall (λ r, is_Some (r !! "id_number")) records →
  ∃ r, select_record records sel = Py.Ok r.
Proof.
  intros Hne Hid.
  assert (∃ fb, last_record records = Py.Ok fb) as [fb Hfb].
  { unfold last_record. destruct (last records) as [fb|] eqn:E;
      [by eexists|]. by apply last_None in E. }
  unfold select_record. rewrite Hfb. destruct (Py.truthy sel);
    [|by eexists].
  cbn. clear Hne Hfb.
  induction Hid as [|r records Hr _ IH]; cbn; [by eexists|].
  rewrite (getitem_Some _ _ Hr). cbn.
  destruct (String.eqb _ _); [by eexists|done].
Qed.

Lemma get_all_records_pair d records :
  (get_all_records d).1 = Py.Ok records →
  get_all_records d = (Py.Ok records, d).
Proof.
  pose proof (get_all_records_disk d) as Hd.
  destruct (get_all_records d) as [res d']. cbn in *. by intros ->; subst.
Qed.


(** X4: with several keys missing, the [KeyError] names the first one
    in the order the row is built. *)
Theorem log_to_excel_names_first_missing_key now data d pre k post :
  required_keys = pre ++ k :: post →
  Forall (λ k', is_Some (data !! k')) pre →
  data !! k = None →
  log_to_excel now data d = (Py.Raise (Py.KeyError k), d).
Proof.
  intros Hkeys Hpre Hk.
  assert (new_row now data = Py.Raise (Py.KeyError k)) as E.
  { unfold required_keys in Hkeys. unfold new_row.
    do 9 (destruct pre as [|k' pre];
          [ injection Hkeys as <- _; unfold Py.getitem; by rewrite Hk
          | injection Hkeys as <- Hkeys;
            apply Forall_cons_1 in Hpre as [Hk' Hpre];
            rewrite (getitem_Some _ _ Hk'); clear Hk';
            cbn [mbind Py.result_bind] ]).
    by destruct pre. }
  unfold log_to_excel, mbind, IO_bind, path_exists, lift.
  destruct d as [wb|]; cbn -[new_row ws_append]; by rewrite E.
Qed.

(** X5: a call looks at the nine keys only: two dictionaries that agree
    on them give the same outcome and the same file, whatever other
    keys they hold. *)
Theorem log_to_excel_reads_required_keys now data1 data2 d :
  Forall (λ k, data1 !! k = data2 !! k) required_keys →
  log_to_excel now data1 d = log_to_excel now data2 d.
Proof.
  intros H. unfold required_keys in H.
  repeat (apply Forall_cons_1 in H as [? H]).
  assert (new_row now data1 = new_row now data2) as E.
  { unfold new_row, Py.getitem.
    repeat match goal with
           | Hk : data1 !! _ = data2 !! _ |- _ => rewrite Hk; clear Hk
           end.
    reflexivity. }
  unfold log_to_excel, mbind, IO_bind, path_exists, lift.
  destruct d as [wb|]; cbn -[new_row ws_append]; by rewrite E.
Qed.

(** X6: the dates of two calls made at valid clock values are equal
    exactly when the calls fall in the same minute of the same day. *)
Theorem dates_equal_iff_same_minute now now' :
  valid_datetime now → valid_datetime now' →
  strftime_Ymd_HM now = strftime_Ymd_HM now' ↔
  year now = year now' ∧ month now = month now' ∧ day now = day now' ∧
  hour now = hour now' ∧ minute now = minute now'.
Proof.
  intros Hv Hv'. split.
  - by apply strftime_same_minute.
  - intros (? & ? & ? & ? & ?). by apply strftime_minute_resolution.
Qed.

End Invariant.


Lemma log_to_excel_names_first_missing_key_witness :
  required_keys =
    ["id_number"; "full_name"] ++ "nickname" ::
    ["position"; "office"; "contact_name"; "contact_number"; "address";
     "photo_filename"] ∧
  log_to_excel noon (delete "address" (delete "nickname" juan_sample)) None =
    (Py.Raise (Py.KeyError "nickname"), None).
Proof.
  split; [reflexivity|].
  apply (log_to_excel_names_first_missing_key noon
           (delete "address" (delete "nickname" juan_sample)) None
           ["id_number"; "full_name"] "nickname"
           ["position"; "office"; "contact_name"; "contact_number";
            "address"; "photo_filename"]).
  - reflexivity.
  - apply (bool_decide_unpack _). vm_compute. reflexivity.
  - vm_compute. reflexivity.
Defined.

Lemma log_to_excel_reads_required_keys_witness :
  Forall (λ k, juan_sample !! k = <["remarks" := Py.Str "VIP"]> juan_sample !! k)
         required_keys ∧
  log_to_excel noon juan_sample None =
    log_to_excel noon (<["remarks" := Py.Str "VIP"]> juan_sample) None.
Proof.
  assert (Forall (λ k, juan_sample !! k =
                       <["remarks" := Py.Str "VIP"]> juan_sample !! k)
                 required_keys) as H
    by (apply (bool_decide_unpack _); vm_compute; reflexivity).
  split; [exact H|].
  exact (log_to_excel_reads_required_keys noon _ _ None H).
Defined.

Lemma dates_equal_iff_same_minute_witness :
  valid_datetime noon ∧
  valid_datetime {| year := 2024; month := 3; day := 9; hour := 12;
                    minute := 0; second := 2; microsecond := 0 |} ∧
  strftime_Ymd_HM noon =
    strftime_Ymd_HM {| year := 2024; month := 3; day := 9; hour := 12;
                       minute := 0; second := 2; microsecond := 0 |}.
Proof.
  assert (valid_datetime noon) as H1 by (vm_compute; intuition discriminate).
  assert (valid_datetime {| year := 2024; month := 3; day := 9; hour := 12;
                            minute := 0; second := 2; microsecond := 0 |})
    as H2 by (vm_compute; intuition discriminate).
  split; [exact H1|]. split; [exact H2|].
  apply (proj2 (dates_equal_iff_same_minute _ _ H1 H2)).
  repeat split; reflexivity.
Defined.

(** * Properties of the generate route *)

Section Normalisation.

Implicit Types (c : ascii) (s t : string).

Lemma isspace_upper_char c : isspace (upper_char c) = isspace c.
Proof. by destruct c as [[] [] [] [] [] [] [] []]. Qed.

Lemma islower_upper_char c : islower (upper_char c) = false.
Proof. by destruct c as [[] [] [] [] [] [] [] []]. Qed.

Lemma upper_char_not_lower c : islower c = false → upper_char c = c.
Proof. unfold upper_char. by intros ->. Qed.

Lemma no_lower_upper s : no_lower (upper s) = true.
Proof.
  induction s as [|c s IH]; [done|]. cbn [upper no_lower].
  by rewrite islower_upper_char, IH.
Qed.

Lemma upper_fixed s : no_lower s = true → upper s = s.
Proof.
  induction s as [|c s IH]; [done|]. cbn [upper no_lower].
  intros [Hc Hs]%andb_prop. apply negb_true_iff in Hc.
  by rewrite (upper_char_not_lower _ Hc), (IH Hs).
Qed.

Lemma head_space_upper s : head_space (upper s) = head_space s.
Proof. destruct s as [|c s]; [done|]. apply isspace_upper_char. Qed.

Lemma last_space_upper s : last_space (upper s) = last_space s.
Proof.
  induction s as [|c s IH]; [done|].
  destruct s as [|c' s]; [apply isspace_upper_char|]. exact IH.
Qed.

Lemma head_space_lstrip s : head_space (lstrip s) = false.
Proof.
  induction s as [|c s IH]; [done|]. cbn [lstrip].
  destruct (isspace c) eqn:Hc; [done|]. exact Hc.
Qed.

Lemma lstrip_fixed s : head_space s = false → lstrip s = s.
Proof. destruct s as [|c s]; [done|]. cbn. by intros ->. Qed.

Lemma rstrip_cons c s :
  rstrip (String c s) =
    match rstrip s with
    | "" => if isspace c then "" else String c ""
    | r => String c r
    end.
Proof. reflexivity. Qed.

Lemma last_space_rstrip s : last_space (rstrip s) = false.
Proof.
  induction s as [|c s IH]; [done|]. rewrite rstrip_cons.
  destruct (rstrip s) as [|c' r].
  - by destruct (isspace c) eqn:Hc.
  - exact IH.
Qed.

Lemma rstrip_fixed s : last_space s = false → rstrip s = s.
Proof.
  induction s as [|c s IH]; [done|].
  destruct s as [|c' s].
  - cbn. by intros ->.
  - intros Hs. rewrite rstrip_cons, (IH Hs). done.
Qed.

Lemma last_space_lstrip s : last_space s = false → last_space (lstrip s) = false.
Proof.
  induction s as [|c s IH]; [done|]. cbn [lstrip].
  destruct (isspace c) eqn:Hc; [|done].
  destruct s as [|c' s]; [done|]. exact IH.
Qed.

Lemma strip_trimmed s :
  head_space (strip s) = false ∧ last_space (strip s) = false.
Proof.
  unfold strip. split; [apply head_space_lstrip|].
  apply last_space_lstrip, last_space_rstrip.
Qed.

Lemma strip_fixed s :
  head_space s = false → last_space s = false → strip s = s.
Proof.
  intros Hh Hl. unfold strip. by rewrite (rstrip_fixed _ Hl), lstrip_fixed.
Qed.

(** X7: the text fields that [generate_id] logs are normal forms: for
    every submitted text, [strip] followed by [upper] gives a text with
    no white space at either end and no lower-case letter, and
    submitting that text again gives it back unchanged; [strip] alone,
    as used for the contact number, does the same without touching the
    case. *)
Theorem form_texts_normalised s :
  head_space (upper (strip s)) = false ∧
  last_space (upper (strip s)) = false ∧
  no_lower (upper (strip s)) = true ∧
  upper (strip (upper (strip s))) = upper (strip s) ∧
  head_space (strip s) = false ∧
  last_space (strip s) = false ∧
  strip (strip s) = strip s.
Proof.
  destruct (strip_trimmed s) as [Hh Hl].
  assert (head_space (upper (strip s)) = false) as Hh'
    by (by rewrite head_space_upper).
  assert (last_space (upper (strip s)) = false) as Hl'
    by (by rewrite last_space_upper).
  split_and!; try done.
  - apply no_lower_upper.
  - rewrite (strip_fixed _ Hh' Hl'). apply upper_fixed, no_lower_upper.
  - by apply strip_fixed.
Qed.

Example normalise_juan : upper (strip "  juan dela Cruz ") = "JUAN DELA CRUZ".
Proof. reflexivity. Qed.

End Normalisation.

Section Generate.

Context (up : Uploads).

Implicit Types (form : gmap string string)
  (files : gmap string FileStorage) (f : FileStorage)
  (d : disk) (u : folder up) (now : datetime).

Lemma form_data_complete form id_number full_name photo_filename :
  complete (form_data form id_number full_name photo_filename).
Proof.
  unfold complete, required_keys, form_data.
  repeat (apply Forall_cons; split;
          [eexists; rewrite ?lookup_insert_ne by done;
           apply lookup_insert_eq|]).
  apply Forall_nil_2.
Qed.

Lemma log_form_data now form id_number full_name photo_filename d :
  log_to_excel now (form_data form id_number full_name photo_filename) d =
    (Py.Ok tt,
     Some {| active :=
       ws_append (logged_row now
                    (form_data form id_number full_name photo_filename))
                 (active (opened d)) |}).
Proof. apply log_to_excel_complete, form_data_complete. Qed.




End Generate.




(** ** From the form to the preview *)

Section GenerateThenPreview.

Context (up : Uploads).

Implicit Types (form : gmap string string)
  (files : gmap string FileStorage) (d : disk) (u : folder up)
  (now : datetime) (records : list dict).

Lemma generate_id_returns now_photo now_log form files d u r d' u' :
  generate_id up now_photo now_log form files d u = (Py.Ok r, d', u') →
  r = generated form ∧
  ∃ photo_filename,
    d' = disk_after
           (log_to_excel now_log
              (form_data form (form_id form) (form_name form) photo_filename))
           d.
Proof.
  unfold generate_id, disk_after.
  fold (form_id form) (form_name form) (photo_name now_photo form).
  destruct (files !! "photo_file") as [f|].
  - destruct (String.eqb (filename f) ""); cbn [negb].
    + rewrite log_form_data. intros [= <- <- <-]. split; [done|].
      eexists. by rewrite log_form_data.
    + destruct (save_upload up _ f u) as [[[]|e0] u0]; [|discriminate].
      rewrite log_form_data. intros [= <- <- <-]. split; [done|].
      eexists. by rewrite log_form_data.
  - rewrite log_form_data. intros [= <- <- <-]. split; [done|].
    eexists. by rewrite log_form_data.
Qed.

Lemma query_of_generated form :
  args_get (query_of (generated form)) "selected_id" Py.None_ =
    Py.Str (form_id form) ∧
  args_get (query_of (generated form)) "is_new" (Py.Bool false) =
    Py.Str "True".
Proof.
  unfold args_get, query_of, generated. cbn.
  rewrite lookup_insert_eq, lookup_insert_ne by done.
  by rewrite lookup_insert_eq.
Qed.


End GenerateThenPreview.


(** * Properties of the batch route *)

Section Batch.

Implicit Types (d : disk) (records : list dict) (res : dict).

Lemma with_qr_lookup res :
  with_qr res !! "qr_base64" = Some (QRImage (generate_qr_base64 res)) ∧
  ∀ k, k ≠ "qr_base64" → with_qr res !! k = Field <$> res !! k.
Proof.
  unfold with_qr. split; [apply lookup_insert_eq|].
  intros k Hk. rewrite lookup_insert_ne by done. apply lookup_fmap.
Qed.


End Batch.


(** * Reading the QR text back *)

Section Decode.

Implicit Types (data : dict) (v : Py.value) (s t p : string).

Lemma qr_content_template data :
  qr_content data =
    String.concat nl
      (template (Py.get data "id_number") (Py.get data "full_name")
         (Py.get data "position") (Py.get data "office")
         (Py.get data "contact_name") (Py.get data "contact_number")).
Proof. reflexivity. Qed.

Lemma template_no_newline v1 v2 v3 v4 v5 v6 :
  Forall (λ v, has_newline (Py.str v) = false) [v1; v2; v3; v4; v5; v6] →
  Forall (λ s, has_newline s = false) (template v1 v2 v3 v4 v5 v6).
Proof.
  intros Hnl.
  apply Forall_cons_1 in Hnl as [N1 Hnl].
  apply Forall_cons_1 in Hnl as [N2 Hnl].
  apply Forall_cons_1 in Hnl as [N3 Hnl].
  apply Forall_cons_1 in Hnl as [N4 Hnl].
  apply Forall_cons_1 in Hnl as [N5 Hnl].
  apply Forall_cons_1 in Hnl as [N6 _].
  unfold template.
  repeat (apply Forall_cons; split;
          [repeat (first [rewrite has_newline_app | progress simpl]);
           by rewrite ?N1, ?N2, ?N3, ?N4, ?N5, ?N6|]).
  apply Forall_nil_2.
Qed.

Lemma lines_template v1 v2 v3 v4 v5 v6 :
  Forall (λ v, has_newline (Py.str v) = false) [v1; v2; v3; v4; v5; v6] →
  lines (String.concat nl (template v1 v2 v3 v4 v5 v6)) =
    template v1 v2 v3 v4 v5 v6.
Proof.
  intros Hnl. apply template_no_newline in Hnl. revert Hnl.
  unfold template. apply lines_concat.
Qed.

Lemma append_inj_prefix p s t : p +:+ s = p +:+ t → s = t.
Proof.
  induction p as [|c p IH]; [done|]. simpl. intros [= H]. by apply IH.
Qed.

(** X13: a reader of the QR text gets the fields back: when none of
    the six rendered fields holds a newline, two records with the same
    QR text have the same id number, name, position and office as
    rendered, and the same emergency line. *)
Theorem qr_text_determines_fields data1 data2 :
  Forall (λ k, has_newline (Py.str (Py.get data1 k)) = false)
         payload_fields →
  Forall (λ k, has_newline (Py.str (Py.get data2 k)) = false)
         payload_fields →
  qr_content data1 = qr_content data2 →
  Py.str (Py.get data1 "id_number") = Py.str (Py.get data2 "id_number") ∧
  Py.str (Py.get data1 "full_name") = Py.str (Py.get data2 "full_name") ∧
  Py.str (Py.get data1 "position") = Py.str (Py.get data2 "position") ∧
  Py.str (Py.get data1 "office") = Py.str (Py.get data2 "office") ∧
  Py.str (Py.get data1 "contact_name") +:+ " (" +:+
    Py.str (Py.get data1 "contact_number") +:+ ")" =
  Py.str (Py.get data2 "contact_name") +:+ " (" +:+
    Py.str (Py.get data2 "contact_number") +:+ ")".
Proof.
  intros H1 H2 E.
  apply (f_equal lines) in E.
  rewrite !qr_content_template in E.
  unfold payload_fields in H1, H2.
  rewrite !lines_template in E.
  2: { repeat (apply Forall_cons_1 in H2 as [? H2]).
       repeat (apply Forall_cons; split; [assumption|]). apply Forall_nil_2. }
  2: { repeat (apply Forall_cons_1 in H1 as [? H1]).
       repeat (apply Forall_cons; split; [assumption|]). apply Forall_nil_2. }
  unfold template in E.
  injection E as E1 E2 E3 E4 E5.
  apply (append_inj_prefix "") in E1, E2, E3, E4, E5.
  done.
Qed.

(** The two contact fields cannot always be told apart in the
    emergency line. *)
Example emergency_line_ambiguous :
  qr_content (<["contact_name" := Py.Str "A (B"]>
                (<["contact_number" := Py.Str "C"]> juan_sample)) =
  qr_content (<["contact_name" := Py.Str "A"]>
                (<["contact_number" := Py.Str "B (C"]> juan_sample)).
Proof. vm_compute. reflexivity. Qed.

End Decode.

Lemma qr_text_determines_fields_witness :
  Forall (λ k, has_newline (Py.str (Py.get juan_sample k)) = false)
         payload_fields ∧
  Forall (λ k, has_newline (Py.str (Py.get juan_reissued k)) = false)
         payload_fields ∧
  qr_content juan_sample = qr_content juan_reissued ∧
  Py.str (Py.get juan_sample "id_number") =
    Py.str (Py.get juan_reissued "id_number").
Proof.
  assert (Forall (λ k, has_newline (Py.str (Py.get juan_sample k)) = false)
                 payload_fields) as H1
    by (apply (bool_decide_unpack _); vm_compute; reflexivity).
  assert (Forall (λ k, has_newline (Py.str (Py.get juan_reissued k)) = false)
                 payload_fields) as H2
    by (apply (bool_decide_unpack _); vm_compute; reflexivity).
  assert (qr_content juan_sample = qr_content juan_reissued) as E
    by (vm_compute; reflexivity).
  split; [exact H1|]. split; [exact H2|]. split; [exact E|].
  exact (proj1 (qr_text_determines_fields _ _ H1 H2 E)).
Defined.

(** * Properties of the account routes *)

Section Accounts.

Context (bc : Bcrypt).

Implicit Types (users : list User) (user : User) (req : Request)
  (session : option nat) (n : string).

Lemma find_username_None users n :
  List.find (λ u, String.eqb (username u) n) users = None →
  n ∉ username <$> users.
Proof.
  induction users as [|u users IH]; cbn.
  - intros _. apply not_elem_of_nil.
  - destruct (String.eqb (username u) n) eqn:E; [done|].
    intros H. apply not_elem_of_cons. split; [|by apply IH].
    apply String.eqb_neq in E. congruence.
Qed.

Lemma find_snoc {A} (f : A → bool) (l : list A) (x : A) :
  List.find f l = None → f x = true → List.find f (l ++ [x]) = Some x.
Proof.
  intros Hl Hx. induction l as [|y l IH]; cbn in *; [by rewrite Hx|].
  destruct (f y); [done|]. by apply IH.
Qed.

Lemma find_elem {A} (f : A → bool) (l : list A) (x : A) :
  List.find f l = Some x → x ∈ l ∧ f x = true.
Proof.
  induction l as [|y l IH]; cbn; [done|].
  destruct (f y) eqn:E.
  - intros [= ->]. split; [apply list_elem_of_here|done].
  - intros [Hin Hx]%IH. split; [by apply list_elem_of_further|done].
Qed.

Lemma user_id_lt_next users user :
  user ∈ users → user_id user < next_id users.
Proof.
  unfold next_id. induction 1 as [u users|u u' users _ IH]; cbn; lia.
Qed.

Lemma next_id_fresh users : next_id users ∉ user_id <$> users.
Proof.
  intros (u & Hu & Hin)%list_elem_of_fmap.
  apply user_id_lt_next in Hin. lia.
Qed.

(** What a request to [signup] does to the table. *)
Lemma signup_table req users :
  (signup bc req users).2 = users ∨
  ∃ n h,
    method req = POST ∧
    form req !! "username" = Some n ∧
    generate_password_hash bc (form req !! "password") = inr h ∧
    first_by_username users (Some n) = None ∧
    signup bc req users =
      (inr (Redirected {| target := "login"; url_values := [];
               flashes := [("Account created!", "success")] |}),
       users ++ [{| user_id := next_id users; username := n;
                    password := h |}]).
Proof.
  unfold signup. destruct (method req); [by left|].
  destruct (generate_password_hash bc _) as [e|h] eqn:Hh; [by left|].
  destruct (first_by_username users _) as [u|] eqn:Hf; [by left|].
  destruct (form req !! "username") as [n|] eqn:Hn; [|by left].
  right. by exists n, h.
Qed.

(** X14: [signup] keeps the table well formed: if usernames and keys
    are pairwise different before a request, they are so after it,
    whatever the request and whatever the hashing does, and the rows
    present before are still there, unchanged and in the same order. *)
Theorem signup_keeps_usernames_unique req users :
  NoDup (username <$> users) →
  NoDup (user_id <$> users) →
  NoDup (username <$> (signup bc req users).2) ∧
  NoDup (user_id <$> (signup bc req users).2) ∧
  users `prefix_of` snd (signup bc req users).
Proof.
  intros Hnames Hids.
  destruct (signup_table req users) as [->|(n & h & _ & _ & _ & Hf & ->)];
    [done|].
  cbn [snd]. rewrite !fmap_app. cbn.
  split_and!.
  - apply NoDup_app. split_and!; [done| |apply NoDup_singleton].
    intros x Hx ->%list_elem_of_singleton.
    by apply find_username_None in Hf.
  - apply NoDup_app. split_and!; [done| |apply NoDup_singleton].
    intros x Hx ->%list_elem_of_singleton.
    by apply next_id_fresh in Hx.
  - by apply prefix_app_r.
Qed.

(** X15: the table changes only when an account is created: if the
    table after a [signup] request differs from the one before, the
    request was a POST with a username that no row had, hashing the
    submitted password returned, the answer is the redirect to [login]
    with 'Account created!', and the only change is one new row at the
    end, with a fresh key, that username and that hash. *)
Theorem signup_changes_table_only_by_new_account req users :
  (signup bc req users).2 ≠ users →
  ∃ n h,
    method req = POST ∧
    form req !! "username" = Some n ∧
    (n ∉ username <$> users) ∧
    generate_password_hash bc (form req !! "password") = inr h ∧
    signup bc req users =
      (inr (Redirected {| target := "login"; url_values := [];
               flashes := [("Account created!", "success")] |}),
       users ++ [{| user_id := next_id users; username := n;
                    password := h |}]) ∧
    next_id users ∉ user_id <$> users.
Proof.
  intros Hchanged.
  destruct (signup_table req users)
    as [E|(n & h & Hm & Hn & Hh & Hf & E)]; [done|].
  exists n, h. split_and!; try done.
  - by apply find_username_None in Hf.
  - apply next_id_fresh.
Qed.

(** X16: after an account has been created, a client that is not
    logged in and posts the same form to [login] is logged in as that
    account, provided the hashing scheme verifies the hashes it makes. *)
Theorem signup_then_login req users users' page session :
  (∀ pw h, generate_password_hash bc pw = inr h →
           check_password_hash bc h pw = inr true) →
  signup bc req users = (inr page, users') →
  users' ≠ users →
  is_authenticated users' session = false →
  ∃ user,
    login bc req users' session =
      (inr (Redirected {| target := "index"; url_values := [];
               flashes := [] |}),
       Some (user_id user)) ∧
    last users' = Some user ∧
    form req !! "username" = Some (username user) ∧
    load_user users' (Some (user_id user)) = Some user.
Proof.
  intros Hbc Hsignup Hchanged Hanon.
  destruct (signup_table req users)
    as [E|(n & h & Hm & Hn & Hh & Hf & E)].
  { rewrite Hsignup in E. cbn in E. by subst. }
  rewrite Hsignup in E. injection E as -> ->.
  set (user := {| user_id := next_id users; username := n; password := h |})
    in *.
  exists user.
  assert (first_by_username (users ++ [user]) (Some n) = Some user) as Hfind.
  { cbn in *. apply find_snoc; [done|]. cbn. apply String.eqb_refl. }
  split_and!.
  - unfold login. rewrite Hanon, Hm, Hn, Hfind. cbn [password user].
    by rewrite (Hbc _ _ Hh).
  - apply last_snoc.
  - done.
  - cbn. apply find_snoc; [|cbn; apply Nat.eqb_refl].
    destruct (List.find _ users) as [u|] eqn:Hu; [|done].
    apply find_elem in Hu as [Hin Hid]. apply Nat.eqb_eq in Hid.
    apply user_id_lt_next in Hin. cbn in Hid. lia.
Qed.

(** X17: [login] changes the session only by logging in a verified
    user: if the session after a request differs from the one before,
    the client was not logged in, the request was a POST, the first row
    with the submitted username exists, the submitted password verified
    against its stored hash, and the session now holds that row's key;
    the table is never written. *)
Theorem login_only_with_verified_password req users session res session' :
  login bc req users session = (res, session') →
  session' ≠ session →
  ∃ user,
    is_authenticated users session = false ∧
    method req = POST ∧
    first_by_username users (form req !! "username") = Some user ∧
    check_password_hash bc (password user) (form req !! "password") =
      inr true ∧
    session' = Some (user_id user) ∧
    is_authenticated users session' = true ∧
    res = inr (Redirected {| target := "index"; url_values := [];
                  flashes := [] |}).
Proof.
  unfold login.
  destruct (is_authenticated users session) eqn:Hauth;
    [by intros [= <- <-]|].
  destruct (method req); [by intros [= <- <-]|].
  destruct (first_by_username users _) as [user|] eqn:Hf;
    [|by intros [= <- <-]].
  destruct (check_password_hash bc _ _) as [e|[]] eqn:Hc;
    [by intros [= <- <-]| |by intros [= <- <-]].
  intros [= <- <-] _. exists user. split_and!; try done.
  unfold is_authenticated, load_user.
  apply bool_decide_eq_true_2.
  destruct (form req !! "username") as [n|]; [|done]. cbn in Hf.
  apply find_elem in Hf as [Hin _].
  destruct (List.find (λ u, Nat.eqb (user_id u) (user_id user)) users)
    as [u|] eqn:Hu; [by eexists|].
  pose proof (List.find_none _ _ Hu user) as Hno. cbn in Hno.
  rewrite Nat.eqb_refl in Hno. apply list_elem_of_In in Hin.
  by specialize (Hno Hin).
Qed.


End Accounts.

Lemma signup_keeps_usernames_unique_witness :
  NoDup (username <$> sample_users) ∧
  NoDup (user_id <$> sample_users) ∧
  NoDup (username <$> (signup toy_bcrypt ana_signup sample_users).2) ∧
  NoDup (user_id <$> (signup toy_bcrypt ana_signup sample_users).2) ∧
  sample_users `prefix_of` snd (signup toy_bcrypt ana_signup sample_users).
Proof.
  assert (NoDup (username <$> sample_users)) as H1
    by (apply (bool_decide_unpack _); vm_compute; reflexivity).
  assert (NoDup (user_id <$> sample_users)) as H2
    by (apply (bool_decide_unpack _); vm_compute; reflexivity).
  split; [exact H1|]. split; [exact H2|].
  exact (signup_keeps_usernames_unique toy_bcrypt ana_signup sample_users
           H1 H2).
Defined.

Lemma signup_changes_table_only_by_new_account_witness :
  (signup toy_bcrypt ana_signup sample_users).2 ≠ sample_users ∧
  ∃ n h,
    method ana_signup = POST ∧
    form ana_signup !! "username" = Some n ∧
    (n ∉ username <$> sample_users) ∧
    generate_password_hash toy_bcrypt (form ana_signup !! "password") =
      inr h ∧
    signup toy_bcrypt ana_signup sample_users =
      (inr (Redirected {| target := "login"; url_values := [];
               flashes := [("Account created!", "success")] |}),
       sample_users ++ [{| user_id := next_id sample_users; username := n;
                           password := h |}]) ∧
    next_id sample_users ∉ user_id <$> sample_users.
Proof.
  assert ((signup toy_bcrypt ana_signup sample_users).2 ≠ sample_users) as H
    by (vm_compute; discriminate).
  split; [exact H|].
  exact (signup_changes_table_only_by_new_account toy_bcrypt ana_signup
           sample_users H).
Defined.

Lemma signup_then_login_witness :
  (∀ pw h, generate_password_hash toy_bcrypt pw = inr h →
           check_password_hash toy_bcrypt h pw = inr true) ∧
  is_authenticated (signup toy_bcrypt ana_signup sample_users).2 None
    = false ∧
  ∃ user,
    login toy_bcrypt ana_signup
        (signup toy_bcrypt ana_signup sample_users).2 None =
      (inr (Redirected {| target := "index"; url_values := [];
               flashes := [] |}),
       Some (user_id user)) ∧
    last (signup toy_bcrypt ana_signup sample_users).2 = Some user ∧
    form ana_signup !! "username" = Some (username user) ∧
    load_user (signup toy_bcrypt ana_signup sample_users).2
      (Some (user_id user)) = Some user.
Proof.
  assert (∀ pw h, generate_password_hash toy_bcrypt pw = inr h →
                  check_password_hash toy_bcrypt h pw = inr true) as Hbc.
  { intros [p|] h; simpl; [|discriminate].
    intros [= <-]. by rewrite String.eqb_refl. }
  assert (is_authenticated (signup toy_bcrypt ana_signup sample_users).2 None
          = false) as Hanon by reflexivity.
  split; [exact Hbc|]. split; [exact Hanon|].
  apply (signup_then_login toy_bcrypt ana_signup sample_users
           (signup toy_bcrypt ana_signup sample_users).2
           (Redirected {| target := "login"; url_values := [];
               flashes := [("Account created!", "success")] |})
           None Hbc).
  - vm_compute. reflexivity.
  - vm_compute. discriminate.
  - exact Hanon.
Defined.

Lemma login_only_with_verified_password_witness :
  login toy_bcrypt maria_login sample_users None =
    (inr (Redirected {| target := "index"; url_values := [];
             flashes := [] |}), Some 1) ∧
  ∃ user,
    is_authenticated sample_users None = false ∧
    method maria_login = POST ∧
    first_by_username sample_users (form maria_login !! "username") =
      Some user ∧
    check_password_hash toy_bcrypt (password user)
      (form maria_login !! "password") = inr true ∧
    Some 1 = Some (user_id user) ∧
    is_authenticated sample_users (Some 1) = true ∧
    inr (Redirected {| target := "index"; url_values := [];
           flashes := [] |}) =
      (inr (Redirected {| target := "index"; url_values := [];
              flashes := [] |}) : auth_exn + Page).
Proof.
  assert (login toy_bcrypt maria_login sample_users None =
    (inr (Redirected {| target := "index"; url_values := [];
             flashes := [] |}), Some 1)) as H by (vm_compute; reflexivity).
  split; [exact H|].
  apply (login_only_with_verified_password toy_bcrypt maria_login
           sample_users None _ _ H).
  discriminate.
Defined.

